(** * The Windfreak microwave source adapter
      (hardware/microwave/mw_source_windfreak.py)

    A shallow embedding of the class [MicrowaveWindfreak]: its methods become
    computations over an explicit instance dictionary and an explicit record
    of the traffic on the VISA connection.  Python exceptions are outcomes of
    a computation, next to ordinary return values.  [on_deactivate], which
    only closes the session, is left out. *)

From Stdlib Require Import ZArith String Ascii List Lia.
From Stdlib Require Import Floats.SpecFloat.
From stdpp Require Import gmap strings pretty.

Local Open Scope Z_scope.

(** ** Python floats

    A Python [float] is an IEEE 754 binary64 number: 53 bits of precision,
    exponents below 1024. *)

Module PyFloat.

Definition prec : Z := 53.
Definition emax : Z := 1024.

Definition float : Type := spec_float.

(** The float nearest to an integer (exact below 2^53). *)
Definition of_Z (z : Z) : float := binary_normalize prec emax z 0 false.

Definition sub (x y : float) : float := SFsub prec emax x y.
Definition leb (x y : float) : bool := SFleb x y.

(** [n / d] rounded to the nearest integer, ties to the even one; [d > 0]. *)
Definition div_half_even (n d : Z) : Z :=
  let q := n / d in
  match (2 * (n mod d)) ?= d with
  | Lt => q
  | Gt => q + 1
  | Eq => if Z.even q then q else q + 1
  end.

(** The value [m * 2^e] as a fraction of two positive integers. *)
Definition fraction (m : positive) (e : Z) : Z * Z :=
  if 0 <=? e then (Z.pos m * 2 ^ e, 1) else (Z.pos m, 2 ^ (- e)).

(** [m * 2^e * 10^k] rounded to the nearest integer, ties to even. *)
Definition scaled (m : positive) (e : Z) (k : Z) : Z :=
  let '(n, d) := fraction m e in
  if 0 <=? k then div_half_even (n * 10 ^ k) d
  else div_half_even n (d * 10 ^ (- k)).

Definition digits (z : Z) : string := pretty (Z.to_N z).

Fixpoint zeros (n : nat) : string :=
  match n with
  | O => ""
  | S k => String "0" (zeros k)
  end.

(** Decimal digits of [z], padded with zeros on the left to [width]. *)
Definition zero_padded (width : nat) (z : Z) : string :=
  let s := digits z in
  zeros (width - String.length s) +:+ s.

Definition sign_prefix (negative : bool) : string :=
  if negative then "-" else "".

(** Presentation type [f] with the default precision of six digits after
    the point, as in ['{0:f}'.format(x)]. *)
Definition format_f (x : float) : string :=
  match x with
  | S754_nan => "nan"
  | S754_infinity s => sign_prefix s +:+ "inf"
  | S754_zero s => sign_prefix s +:+ "0.000000"
  | S754_finite s m e =>
      let n := scaled m e 6 in
      sign_prefix s +:+ digits (n / 10 ^ 6) +:+ "." +:+
      zero_padded 6 (n mod 10 ^ 6)
  end.

(** The least [k' >= k] with [d <= n * 10^k'], searched over [fuel] steps. *)
Fixpoint shift_up (fuel : nat) (n d k : Z) : Z :=
  match fuel with
  | O => k
  | S f => if d <=? n * 10 ^ k then k else shift_up f n d (k + 1)
  end.

(** The decimal exponent of [m * 2^e]: the [x] with
    [10^x <= m * 2^e < 10^(x+1)]. *)
Definition exponent10 (m : positive) (e : Z) : Z :=
  let '(n, d) := fraction m e in
  if d <=? n then Z.of_nat (String.length (digits (n / d))) - 1
  else - shift_up (S (Z.to_nat (Z.log2 d))) n d 1.

Definition exponent_suffix (x : Z) : string :=
  "e" +:+ (if x <? 0 then "-" else "+") +:+ zero_padded 2 (Z.abs x).

(** Seven significant digits [dddddddd] shown as [d.dddddd]. *)
Definition mantissa_text (n : Z) : string :=
  digits (n / 10 ^ 6) +:+ "." +:+ zero_padded 6 (n mod 10 ^ 6).

(** Presentation type [e] with the default precision of six digits after
    the point, as in ['{0:e}'.format(x)]. *)
Definition format_e (x : float) : string :=
  match x with
  | S754_nan => "nan"
  | S754_infinity s => sign_prefix s +:+ "inf"
  | S754_zero s => sign_prefix s +:+ "0.000000e+00"
  | S754_finite s m e =>
      let x10 := exponent10 m e in
      let n := scaled m e (6 - x10) in
      let '(n, x10) := if n =? 10 ^ 7 then (10 ^ 6, x10 + 1) else (n, x10) in
      sign_prefix s +:+ mantissa_text n +:+ exponent_suffix x10
  end.

End PyFloat.

Export PyFloat.

(** ** Python values and exceptions *)

#[local] Set Warnings "-register-all".

(** The objects the adapter handles at run time.  [VConnection] is the
    session object returned by [open_resource]; [VResourceManager] the
    object kept in [self.rm]. *)
Inductive pyval : Type :=
| VNone
| VBool (b : bool)
| VInt (z : Z)
| VFloat (x : float)
| VStr (s : string)
| VTuple (items : list pyval)
| VConnection
| VResourceManager.

Inductive exn : Type :=
| TypeError
| ValueError
| IndexError
| OverflowError
| AttributeError (name : string)
| VisaIOError.

(** Truth value of an object, as tested by [if] and [while]. *)
Definition truthy (v : pyval) : bool :=
  match v with
  | VNone => false
  | VBool b => b
  | VInt z => negb (z =? 0)
  | VFloat x =>
      match x with
      | S754_zero _ => false
      | _ => true
      end
  | VStr s => negb (String.eqb s "")
  | VTuple items =>
      match items with
      | [] => false
      | _ => true
      end
  | VConnection | VResourceManager => true
  end.

(** [v == s] for a string literal [s]. *)
Definition eq_str (v : pyval) (s : string) : bool :=
  match v with
  | VStr t => String.eqb t s
  | _ => false
  end.

(** ** The instrument and the adapter's world *)

(** What went over the connection, and the pauses in between. *)
Inductive event : Type :=
| Wrote (cmd : string)
| Queried (cmd : string)
| Slept (ms : Z).

(** The instrument behind the VISA resource manager.  Its answers may depend
    on everything that happened before.  [None] is a transport failure (the
    library raises [VisaIOError]); [write_result] is what [write] hands back
    to the caller. *)
Record device : Type := {
  opens : pyval -> pyval -> bool;
  write_result : list event -> string -> option pyval;
  query_reply : list event -> string -> option string
}.

(** The adapter instance ([attrs] is the dictionary of [self]), the traffic
    so far (oldest first) and the instrument. *)
Record world : Type := {
  attrs : gmap string pyval;
  trace : list event;
  instrument : device
}.

Definition with_attrs (f : gmap string pyval -> gmap string pyval) (w : world) : world :=
  {| attrs := f (attrs w); trace := trace w; instrument := instrument w |}.

Definition record (e : event) (w : world) : world :=
  {| attrs := attrs w; trace := trace w ++ [e]; instrument := instrument w |}.

(** ** Computations *)

Inductive outcome (A : Type) : Type :=
| Returned (a : A)
| Raised (e : exn)
| Unfinished.

Arguments Returned {A} a.
Arguments Raised {A} e.
Arguments Unfinished {A}.

(** A method body: it runs in a world and ends by returning, by raising, or
    is cut off while still looping ([Unfinished], see [cw_on_wait]). *)
Definition M (A : Type) : Type := world -> outcome A * world.

#[global] Instance M_ret : MRet M := fun A a w => (Returned a, w).

#[global] Instance M_bind : MBind M := fun A B f c w =>
  match c w with
  | (Returned a, w') => f a w'
  | (Raised e, w') => (Raised e, w')
  | (Unfinished, w') => (Unfinished, w')
  end.

Definition raise {A : Type} (e : exn) : M A := fun w => (Raised e, w).

Definition unfinished {A : Type} : M A := fun w => (Unfinished, w).

(** [try: body / except: handler] with a bare [except]. *)
Definition try_except {A : Type} (body handler : M A) : M A := fun w =>
  match body w with
  | (Raised _, w') => handler w'
  | r => r
  end.

Definition when (b : bool) (c : M unit) : M unit :=
  if b then c else mret tt.

(** *** Attributes *)

(** Data attributes of the class body, found when the instance has none of
    that name. *)
Definition class_attrs : gmap string pyval :=
  {[ "_modclass" := VStr "MicrowaveWindfreak";
     "_modtype" := VStr "hardware";
     "_internal_mode" := VStr "cw" ]}.

(** [self.name] *)
Definition getattr (name : string) : M pyval := fun w =>
  match attrs w !! name with
  | Some v => (Returned v, w)
  | None =>
      match class_attrs !! name with
      | Some v => (Returned v, w)
      | None => (Raised (AttributeError name), w)
      end
  end.

(** [self.name = v] *)
Definition setattr (name : string) (v : pyval) : M unit := fun w =>
  (Returned tt, with_attrs (insert name v) w).

Definition starts_with_two_underscores (s : string) : bool :=
  match s with
  | String "_" (String "_" _) => true
  | _ => false
  end.

Definition ends_with_two_underscores (s : string) : bool :=
  starts_with_two_underscores (String.rev s).

(** Private name mangling inside the body of class [cls]. *)
Definition mangle (cls name : string) : string :=
  if starts_with_two_underscores name && negb (ends_with_two_underscores name)
  then "_" +:+ cls +:+ name
  else name.

Definition class_name : string := "MicrowaveWindfreak".

(** *** The connection object *)

(** [conn.write], then the call [conn.write(cmd)]. *)
Definition transmit (cmd : string) : M pyval := fun w =>
  match write_result (instrument w) (trace w) cmd with
  | Some v => (Returned v, record (Wrote cmd) w)
  | None => (Raised VisaIOError, w)
  end.

Definition write_method (obj : pyval) : M (string -> M pyval) :=
  match obj with
  | VConnection => mret transmit
  | _ => raise (AttributeError "write")
  end.

(** [conn.query], then the call [conn.query(cmd)]. *)
Definition exchange (cmd : string) : M string := fun w =>
  match query_reply (instrument w) (trace w) cmd with
  | Some reply => (Returned reply, record (Queried cmd) w)
  | None => (Raised VisaIOError, w)
  end.

Definition query_method (obj : pyval) : M (string -> M string) :=
  match obj with
  | VConnection => mret exchange
  | _ => raise (AttributeError "query")
  end.

(** [time.sleep] *)
Definition sleep (ms : Z) : M unit := fun w => (Returned tt, record (Slept ms) w).

(** *** Builtins *)

(** [v()]: none of the objects above is callable. *)
Definition call (v : pyval) : M pyval :=
  match v with
  | VNone | VBool _ | VInt _ | VFloat _ | VStr _ | VTuple _
  | VConnection | VResourceManager => raise TypeError
  end.

(** [a, b = v] *)
Definition unpack2 (v : pyval) : M (pyval * pyval) :=
  match v with
  | VTuple [a; b] => mret (a, b)
  | VTuple _ => raise ValueError
  | VStr (String a (String b "")) => mret (VStr (String a ""), VStr (String b ""))
  | VStr _ => raise ValueError
  | _ => raise TypeError
  end.

(** Whitespace removed by [str.strip()]. *)
Definition is_space (c : ascii) : bool :=
  let n := Z.of_nat (nat_of_ascii c) in
  ((9 <=? n) && (n <=? 13)) || ((28 <=? n) && (n <=? 32)).

Fixpoint lstrip (s : string) : string :=
  match s with
  | String c r => if is_space c then lstrip r else s
  | EmptyString => s
  end.

Definition strip (s : string) : string :=
  String.rev (lstrip (String.rev (lstrip s))).

Definition digit_value (c : ascii) : option Z :=
  let n := Z.of_nat (nat_of_ascii c) in
  if (48 <=? n) && (n <=? 57) then Some (n - 48) else None.

(** Decimal digits, single underscores allowed between two digits. *)
Fixpoint digits_value (acc : Z) (after_digit : bool) (s : string) : option Z :=
  match s with
  | EmptyString => if after_digit then Some acc else None
  | String c r =>
      if Ascii.eqb c "_" then
        if after_digit then digits_value acc false r else None
      else
        match digit_value c with
        | Some d => digits_value (10 * acc + d) true r
        | None => None
        end
  end.

(** [int(s)] on a string; [None] is a [ValueError]. *)
Definition int_of_string (s : string) : option Z :=
  match strip s with
  | String "+" r => digits_value 0 false r
  | String "-" r => Z.opp <$> digits_value 0 false r
  | t => digits_value 0 false t
  end.

Definition py_int (s : string) : M Z :=
  match int_of_string s with
  | Some z => mret z
  | None => raise ValueError
  end.

(** [bool(z)] *)
Definition py_bool (z : Z) : bool := negb (z =? 0).

Fixpoint repeat_string (n : nat) (s : string) : string :=
  match n with
  | O => ""
  | S k => s +:+ repeat_string k s
  end.

Definition float_of_int (z : Z) : M float :=
  match of_Z z with
  | S754_infinity _ => raise OverflowError
  | x => mret x
  end.

(** [v * k] for an integer literal [k]. *)
Definition mul_int (v : pyval) (k : Z) : M pyval :=
  match v with
  | VInt z => mret (VInt (z * k))
  | VBool b => mret (VInt ((if b then 1 else 0) * k))
  | VFloat x => y ← float_of_int k; mret (VFloat (SFmul prec emax x y))
  | VStr s => mret (VStr (repeat_string (Z.to_nat k) s))
  | VTuple items => mret (VTuple (mjoin (replicate (Z.to_nat k) items)))
  | VNone | VConnection | VResourceManager => raise TypeError
  end.

(** ['{0:f}'.format(x)] and ['{0:e}'.format(x)]; [None] has no such format. *)
Definition fmt_f (x : option float) : M string :=
  match x with
  | Some v => mret (format_f v)
  | None => raise TypeError
  end.

Definition fmt_e (x : option float) : M string :=
  match x with
  | Some v => mret (format_e v)
  | None => raise TypeError
  end.

(** ** The interface types

    [interface/microwave_interface.py] is not part of the sources at hand;
    the three types the adapter imports from it are given here. *)

(** Modelled from the spec: the output mode enumeration [MicrowaveMode]
    (interface.microwave_interface), "enumeration {CW, LIST, SWEEP}". *)
Inductive MicrowaveMode : Type := CW | LIST | SWEEP.

(** Modelled from the spec: the trigger edge enumeration [TriggerEdge]
    (interface.microwave_interface), "a rising/falling edge enumeration";
    [OTHER_EDGE] stands for its "unsupported polarity values". *)
Inductive TriggerEdge : Type := RISING | FALLING | OTHER_EDGE.

#[global] Instance TriggerEdge_eq_dec : EqDecision TriggerEdge.
Proof. solve_decision. Defined.

(** Modelled from the spec: the value object [MicrowaveLimits]
    (interface.microwave_interface), "static descriptor (min/max frequency,
    min/max power, list/sweep step and entry bounds)"; the fields are those
    [get_limits] assigns. *)
Record MicrowaveLimits : Type := {
  supported_modes : list MicrowaveMode;
  min_frequency : float;
  max_frequency : float;
  min_power : Z;
  max_power : Z;
  list_minstep : float;
  list_maxstep : float;
  list_maxentries : Z;
  sweep_minstep : float;
  sweep_maxstep : float;
  sweep_maxentries : Z
}.

(** The literal [0.1]: the double 0x1.999999999999ap-4. *)
Definition one_tenth : float := S754_finite false 7205759403792794 (-56).

(** ** The adapter's methods *)

Definition get_limits : MicrowaveLimits :=
  {| supported_modes := [CW; LIST; SWEEP];
     min_frequency := of_Z 54000000;
     max_frequency := of_Z 13600000000;
     min_power := -50;
     max_power := 20;
     list_minstep := one_tenth;
     list_maxstep := of_Z 13500000000;
     list_maxentries := 100;
     sweep_minstep := one_tenth;
     sweep_maxstep := of_Z 13500000000;
     sweep_maxentries := 10001 |}.

(** Modelled from the spec: the instance as the framework (core.module.Base,
    not under src/) hands it to [on_activate], holding the two configuration
    options: "a required transport address string and an optional timeout
    (seconds, defaulting to 10)". *)
Definition configured (usb_address : string) (usb_timeout : Z) (d : device) : world :=
  {| attrs := {[ "_usb_address" := VStr usb_address;
                 "_usb_timeout" := VInt usb_timeout ]};
     trace := [];
     instrument := d |}.

(** [rm.open_resource(resource_name=a, timeout=t)] *)
Definition open_resource (rm a t : pyval) : M pyval := fun w =>
  match rm with
  | VResourceManager =>
      if opens (instrument w) a t then (Returned VConnection, w)
      else (Raised VisaIOError, w)
  | _ => (Raised (AttributeError "open_resource"), w)
  end.

(** [self.<attr>.write(<cmd>)]: the attribute, its [write] method, the
    argument, the call. *)
Definition send (attr : string) (cmd : M string) : M pyval :=
  conn ← getattr attr;
  wr ← write_method conn;
  s ← cmd;
  wr s.

(** [self.<attr>.query(<cmd>)] *)
Definition ask (attr : string) (cmd : string) : M string :=
  conn ← getattr attr;
  q ← query_method conn;
  q cmd.

(** The log line between opening the session and the identification query
    leaves no mark here. *)
Definition on_activate : M unit :=
  t ← getattr "_usb_timeout";
  t1000 ← mul_int t 1000;
  setattr "_usb_timeout" t1000;;
  setattr "rm" VResourceManager;;
  rm ← getattr "rm";
  a ← getattr "_usb_address";
  t ← getattr "_usb_timeout";
  conn ← open_resource rm a t;
  setattr "_usb_connection" conn;;
  model ← ask "_usb_connection" "+";
  setattr "model" (VStr model).

Definition on : M Z :=
  send "_usb_connection" (mret "E1r1");;
  mret 0.

Definition off : M Z :=
  send "_usb_connection" (mret "E0r0");;
  mret 0.

(** [get_status] carries [@property]: reading [self.get_status] runs this
    body and yields the pair. *)
Definition get_status : M pyval :=
  let internal_mode := VStr "sweep" in
  reply ← ask "_usb_connection" "r?";
  z ← py_int (strip reply);
  let is_running := VBool (py_bool z) in
  mret (VTuple [internal_mode; is_running]).

(** [self.get_status()]: read the property, then call what it gave. *)
Definition get_status_called : M pyval :=
  status ← get_status;
  call status.

Definition set_power (power : option float) : M Z :=
  match power with
  | Some _ =>
      send "_usb_connection" (s ← fmt_f power; mret ("W" +:+ s));;
      mret 0
  | None => mret (-1)
  end.

Definition set_frequency (freq : option float) : M Z :=
  match freq with
  | Some _ =>
      send "_usb_connection" (s ← fmt_e freq; mret ("f" +:+ s +:+ " MHz"));;
      mret 0
  | None => mret (-1)
  end.

(** A call that may leave the argument out picks up the default of the
    signature: [power=0.] and [freq=None]. *)
Definition set_power_call (power : option (option float)) : M Z :=
  set_power (default (Some (S754_zero false)) power).

Definition set_frequency_call (freq : option (option float)) : M Z :=
  set_frequency (default None freq).

(** The loop closing [cw_on]:
    [while not is_running: time.sleep(0.2); internal_mode, is_running = self.get_status()]
    followed by [return 0].  [fuel] bounds the rounds the model follows; the
    loop itself has no bound. *)
Fixpoint cw_on_wait (fuel : nat) (is_running : pyval) : M Z :=
  if truthy is_running then mret 0
  else
    match fuel with
    | O => unfinished
    | S k =>
        sleep 200;;
        status ← get_status_called;
        '(internal_mode, is_running) ← unpack2 status;
        cw_on_wait k is_running
    end.

(** [cw_on] from the second [if] on (lines 147 to 157). *)
Definition cw_on_enable (fuel : nat) : M Z :=
  mode ← getattr "internal_mode";
  when (negb (eq_str mode "cw"))
    (send "_usb_connection" (mret "E1e1");; mret tt);;
  send (mangle class_name "__usb_connection") (mret "E1e1");;
  is_running ← get_status_called;
  setattr "internal_mode" (VStr "cw");;
  cw_on_wait fuel is_running.

Definition cw_on (fuel : nat) : M Z :=
  is_running ← get_status_called;
  setattr "internal_mode" (VStr "cw");;
  returned ←
    (if truthy is_running then
       mode ← getattr "internal_mode";
       if eq_str mode "cw" then mret (Some 0)
       else off;; mret None
     else mret None);
  match returned with
  | Some code => mret code
  | None => cw_on_enable fuel
  end.

Definition reset_listpos : M Z :=
  send "_usb_connection" (mret "g0");;
  mret 0.

Definition reset_sweeppos : M Z :=
  setattr "internal_mode" (VStr "sweep");;
  send "_usb_connection" (mret "g1");;
  mret 0.

Definition reset_sweep : M Z :=
  send "_usb_connection" (mret "g1");;
  send "_usb_connection" (mret "g0");;
  mret 0.

Definition sweep_on : M Z :=
  send "_usb_connection" (mret "E1r1");;
  send "_usb_connection" (mret "g1");;
  setattr "internal_mode" (VStr "sweep");;
  mret 1.

Definition list_on : M Z :=
  setattr "internal_mode" (VStr "list");;
  send "_usb_connection" (mret "e1r1");;
  send "_usb_connection" (mret "g1");;
  mret 0.

(** [len(freq)], [freq[0]] and [freq[-1]] *)
Definition py_len (freq : option (list float)) : M Z :=
  match freq with
  | Some l => mret (Z.of_nat (length l))
  | None => raise TypeError
  end.

Definition first_item (freq : option (list float)) : M float :=
  match freq with
  | Some (x :: _) => mret x
  | Some [] => raise IndexError
  | None => raise TypeError
  end.

Definition last_item (freq : option (list float)) : M float :=
  match freq with
  | Some l =>
      match last l with
      | Some x => mret x
      | None => raise IndexError
      end
  | None => raise TypeError
  end.

Definition set_list (freq : option (list float)) (power : option float) : M Z :=
  n ← py_len freq;
  send "_usb_connection" (mret "X0");;
  send "_usb_connection"
    (x ← first_item freq; s ← fmt_e (Some x); mret ("l" +:+ s));;
  send "_usb_connection"
    (x ← last_item freq; s ← fmt_e (Some x); mret ("u" +:+ s));;
  send "_usb_connection" (mret ("s" +:+ pretty n));;
  send "_usb_connection" (mret "t10.00");;
  send "_usb_connection" (s ← fmt_f power; mret ("[" +:+ s));;
  send "_usb_connection" (s ← fmt_f power; mret ("]" +:+ s));;
  send "_usb_connection" (mret "^1");;
  send "_usb_connection" (mret "g1");;
  setattr "internal_mode" (VStr "list");;
  mret 0.

Definition set_ext_trigger (pol : TriggerEdge) : M Z :=
  let edge :=
    if decide (pol = RISING) then Some "w1"
    else if decide (pol = FALLING) then Some "w1"
    else None in
  match edge with
  | None => mret (-1)
  | Some edge =>
      returned ←
        try_except (send "_usb_connection" (mret edge);; mret None)
                   (mret (Some (-1)));
      match returned with
      | Some code => mret code
      | None => mret 0
      end
  end.

Section Conversions.

(** Two builtins of the language are left open: [float(s)] on a string
    ([None] is a [ValueError]) and [str(x)] on a float. *)
Variable float_of_str : string -> option float.
Variable str_of_float : float -> string.

(** [float(v)] *)
Definition py_float (v : pyval) : M float :=
  match v with
  | VFloat x => mret x
  | VInt z => float_of_int z
  | VBool b => float_of_int (if b then 1 else 0)
  | VStr s =>
      match float_of_str s with
      | Some x => mret x
      | None => raise ValueError
      end
  | VNone | VTuple _ | VConnection | VResourceManager => raise TypeError
  end.

Definition get_power : M float :=
  r ← send "_usb_connection" (mret "W?");
  py_float r.

Definition get_frequency : M float :=
  r ← ask "_usb_connection" "f?";
  py_float (VStr r).

Definition set_cw (frequency power : option float) : M pyval :=
  is_running ← get_status_called;
  setattr "internal_mode" (VStr "cw");;
  when (truthy is_running) (off;; mret tt);;
  mode ← getattr "internal_mode";
  when (negb (eq_str mode "cw"))
    (send "_usb_connection" (mret "E1r1");; mret tt);;
  match frequency with
  | Some _ =>
      send "_usb_connection" (s ← fmt_f frequency; mret ("f" +:+ s));;
      mret tt
  | None => mret tt
  end;;
  match power with
  | Some _ =>
      send "_usb_connection" (s ← fmt_f power; mret ("W" +:+ s));;
      mret tt
  | None => mret tt
  end;;
  status ← get_status_called;
  '(internal_mode, is_running) ← unpack2 status;
  setattr "internal_mode" internal_mode;;
  actual_freq ← get_frequency;
  actual_power ← get_power;
  mode ← getattr "internal_mode";
  mret (VTuple [VFloat actual_freq; VFloat actual_power; mode]).

Definition set_sweep (start stop step power : float) : M pyval :=
  send "_gpib_connection" (mret "X0");;
  send "_gpib_connection" (mret ("l" +:+ str_of_float (sub start step)));;
  send "_gpib_connection" (mret ("u" +:+ str_of_float stop));;
  send "_gpib_connection" (mret ("s" +:+ str_of_float step));;
  send "_gpib_connection" (mret "x2");;
  send "_gpib_connection" (mret "w1");;
  setattr "internal_mode" (VStr "sweep");;
  getattr "internal_mode".

End Conversions.

(** ** Sessions

    A caller drives the adapter through its public methods, one after the
    other; a method that raises leaves the instance as it was at the raise. *)

Inductive request : Type :=
| OnActivate
| On
| Off
| GetStatus
| GetPower
| SetPower (power : option (option float))
| GetFrequency
| SetFrequency (freq : option (option float))
| CwOn
| SetCw (frequency power : option float)
| SetList (freq : option (list float)) (power : option float)
| ResetListpos
| ResetSweeppos
| SetSweep (start stop step power : float)
| ResetSweep
| SweepOn
| ListOn
| SetExtTrigger (pol : TriggerEdge).

Definition void {A : Type} (c : M A) : M unit :=
  c;; mret tt.

Section Sessions.

Variable float_of_str : string -> option float.
Variable str_of_float : float -> string.

Definition serve (fuel : nat) (r : request) : M unit :=
  match r with
  | OnActivate => on_activate
  | On => void on
  | Off => void off
  | GetStatus => void get_status
  | GetPower => void (get_power float_of_str)
  | SetPower power => void (set_power_call power)
  | GetFrequency => void (get_frequency float_of_str)
  | SetFrequency freq => void (set_frequency_call freq)
  | CwOn => void (cw_on fuel)
  | SetCw frequency power => void (set_cw float_of_str frequency power)
  | SetList freq power => void (set_list freq power)
  | ResetListpos => void reset_listpos
  | ResetSweeppos => void reset_sweeppos
  | SetSweep start stop step power => void (set_sweep str_of_float start stop step power)
  | ResetSweep => void reset_sweep
  | SweepOn => void sweep_on
  | ListOn => void list_on
  | SetExtTrigger pol => void (set_ext_trigger pol)
  end.

(** The world after the requests [rs], served in order. *)
Definition after (fuel : nat) (rs : list request) (w : world) : world :=
  fold_left (fun w r => snd (serve fuel r w)) rs w.

End Sessions.

(** ** Properties the specification asks for *)

(** The connection attribute holds the open session. *)
Definition activated (w : world) : Prop :=
  attrs w !! "_usb_connection" = Some VConnection.

(** The transport takes every write. *)
Definition accepts_writes (d : device) : Prop :=
  forall history cmd, is_Some (write_result d history cmd).

(** The status query is always answered, and never with a running flag. *)
Definition never_running (d : device) : Prop :=
  forall history, exists reply,
    query_reply d history "r?" = Some reply /\
    int_of_string (strip reply) = Some 0.

(** The ways a method could report that it gave up waiting: the error code
    of the docstrings, or the transport's own exception. *)
Definition timeout_failure (o : outcome Z) : Prop :=
  o = Returned (-1) \/ o = Raised VisaIOError.

(** The bounds of [get_limits], as a setter would have to test them. *)
Definition frequency_in_range (x : float) : bool :=
  leb (min_frequency get_limits) x && leb x (max_frequency get_limits).

Definition power_in_range (x : float) : bool :=
  leb (of_Z (min_power get_limits)) x && leb x (of_Z (max_power get_limits)).

(** The names that appear on the left of [self.<name> = ...] in the class. *)
Definition assigned : list string :=
  ["_usb_timeout"; "rm"; "_usb_connection"; "model"; "internal_mode"].

(** [c] leaves the attribute [name] of the instance as it found it. *)
Definition untouched (name : string) {A : Type} (c : M A) : Prop :=
  forall w, attrs (snd (c w)) !! name = attrs w !! name.

(** ** A simulated instrument *)

Definition newline : string := String (ascii_of_nat 10) "".

(** It opens, takes every write (handing back the number of characters) and
    answers the status query with [status]; any other query gets ["0"]. *)
Definition bench (status : string) : device :=
  {| opens := fun _ _ => true;
     write_result := fun _ cmd => Some (VInt (Z.of_nat (String.length cmd)));
     query_reply := fun _ cmd =>
       Some ((if String.eqb cmd "r?" then status else "0") +:+ newline) |}.

(** The adapter configured for the bench and activated. *)
Definition lab (status : string) : world :=
  snd (on_activate (configured "ASRL3::INSTR" 10 (bench status))).

(** The lab with the adapter's mode attribute already at ['cw']. *)
Definition lab_cw (status : string) : world :=
  with_attrs (insert "internal_mode" (VStr "cw")) (lab status).

Definition GHz (tenths : Z) : float := of_Z (tenths * 100000000).

(** ** Invariants of a session *)

(** [c] keeps the property [P] of the world. *)
Definition keeps (P : world -> Prop) {A : Type} (c : M A) : Prop :=
  forall w, P w -> P (snd (c w)).

(** [c] leaves the world alone. *)
Definition inert {A : Type} (c : M A) : Prop :=
  forall w, snd (c w) = w.

(** The connection attribute of the instance is [o]: absent, or some
    object. *)
Definition connection_is (o : option pyval) (w : world) : Prop :=
  attrs w !! "_usb_connection" = o.

(** The mode attribute is absent or one of the three mode names. *)
Definition known_mode (o : option pyval) : bool :=
  match o with
  | None => true
  | Some (VStr m) => String.eqb m "cw" || String.eqb m "list" || String.eqb m "sweep"
  | Some _ => false
  end.

Definition mode_known (w : world) : Prop :=
  known_mode (attrs w !! "internal_mode") = true.

(** ** More simulated instruments *)

(** A transport that opens and answers every query with ["0"], but refuses
    every write. *)
Definition deaf : device :=
  {| opens := fun _ _ => true;
     write_result := fun _ _ => None;
     query_reply := fun _ _ => Some ("0" +:+ newline) |}.

(** A resource that cannot be opened. *)
Definition unplugged : device :=
  {| opens := fun _ _ => false;
     write_result := fun _ _ => None;
     query_reply := fun _ _ => None |}.

(** A transport whose [write] hands back a pair (count, status code), as
    older versions of the VISA library do. *)
Definition paired : device :=
  {| opens := fun _ _ => true;
     write_result := fun _ cmd =>
       Some (VTuple [VInt (Z.of_nat (String.length cmd)); VInt 0]);
     query_reply := fun _ _ => Some ("0" +:+ newline) |}.

(** A transport that takes every write but the command [refused]. *)
Definition picky (refused : string) : device :=
  {| opens := fun _ _ => true;
     write_result := fun _ cmd =>
       if String.eqb cmd refused then None
       else Some (VInt (Z.of_nat (String.length cmd)));
     query_reply := fun _ _ => Some ("0" +:+ newline) |}.

(** The adapter configured for a device and activated. *)
Definition lab_of (d : device) : world :=
  snd (on_activate (configured "ASRL3::INSTR" 10 d)).

(** What the class ever stores in an attribute of the instance: the scaled
    timeout, the resource manager, the session [open_resource] returned, the
    reply to the identification query, and one of three mode names. *)
Definition assignable (name : string) (v : pyval) : bool :=
  if String.eqb name "_usb_timeout" then true
  else if String.eqb name "model" then true
  else if String.eqb name "rm" then
    match v with VResourceManager => true | _ => false end
  else if String.eqb name "_usb_connection" then
    match v with VConnection => true | _ => false end
  else if String.eqb name "internal_mode" then known_mode (Some v)
  else false.

(** * Proofs *)

(** ** The builtins on examples *)

Example format_e_1e9 : format_e (GHz 10) = "1.000000e+09".
Proof. reflexivity. Qed.

Example format_e_rounds_up : format_e (S754_finite false 19999999 (-1)) = "1.000000e+07".
Proof. reflexivity. Qed.

Example format_e_one_tenth : format_e one_tenth = "1.000000e-01".
Proof. reflexivity. Qed.

Example format_f_minus_ten : format_f (of_Z (-10)) = "-10.000000".
Proof. reflexivity. Qed.

Example format_f_ties_to_even : format_f (S754_finite false 1 (-21)) = "0.000000".
Proof. reflexivity. Qed.

Example int_of_padded_reply : int_of_string (" 1" +:+ newline) = Some 1.
Proof. reflexivity. Qed.

Example int_of_underscores : int_of_string "1_000" = Some 1000.
Proof. reflexivity. Qed.

Example int_of_garbage : int_of_string "1.0" = None.
Proof. reflexivity. Qed.

Example mangle_dunder : mangle class_name "__init__" = "__init__".
Proof. reflexivity. Qed.

Example one_hertz_out_of_range : frequency_in_range (of_Z 1) = false.
Proof. reflexivity. Qed.

Example nan_out_of_range : power_in_range S754_nan = false.
Proof. reflexivity. Qed.

(** ** Running a computation step by step *)

Lemma run_bind {A B : Type} (c : M A) (f : A -> M B) (w : world) :
  (c ≫= f) w =
  match c w with
  | (Returned a, w') => f a w'
  | (Raised e, w') => (Raised e, w')
  | (Unfinished, w') => (Unfinished, w')
  end.
Proof. reflexivity. Qed.

Lemma bind_returned {A B : Type} (c : M A) (f : A -> M B) w a w' :
  c w = (Returned a, w') -> (c ≫= f) w = f a w'.
Proof. intros Hc. rewrite run_bind, Hc. reflexivity. Qed.

Lemma bind_raised {A B : Type} (c : M A) (f : A -> M B) w e w' :
  c w = (Raised e, w') -> (c ≫= f) w = (Raised e, w').
Proof. intros Hc. rewrite run_bind, Hc. reflexivity. Qed.

Lemma getattr_instance name v w :
  attrs w !! name = Some v -> getattr name w = (Returned v, w).
Proof. intros Hv. unfold getattr. rewrite Hv. reflexivity. Qed.

Lemma getattr_missing name w :
  attrs w !! name = None -> class_attrs !! name = None ->
  getattr name w = (Raised (AttributeError name), w).
Proof. intros Hi Hc. unfold getattr. rewrite Hi, Hc. reflexivity. Qed.

Lemma activated_record e w : activated w -> activated (record e w).
Proof. intros Hw. exact Hw. Qed.

(** A write on the open session goes out when the transport takes it. *)
Lemma send_returns (cmd : M string) s v w :
  activated w ->
  cmd w = (Returned s, w) ->
  write_result (instrument w) (trace w) s = Some v ->
  send "_usb_connection" cmd w = (Returned v, record (Wrote s) w).
Proof.
  intros Hw Hcmd Hv. unfold send.
  rewrite (bind_returned _ _ _ _ _ (getattr_instance _ _ _ Hw)).
  cbn [write_method]. rewrite run_bind. cbn [mret M_ret].
  rewrite run_bind, Hcmd. unfold transmit. rewrite Hv. reflexivity.
Qed.

(** The same, followed by the rest of the method. *)
Lemma send_then {B : Type} (cmd : M string) (k : M B) s w :
  activated w ->
  accepts_writes (instrument w) ->
  cmd w = (Returned s, w) ->
  (send "_usb_connection" cmd;; k) w = k (record (Wrote s) w).
Proof.
  intros Hw Hacc Hcmd. destruct (Hacc (trace w) s) as [v Hv].
  apply bind_returned with (a := v). apply send_returns; assumption.
Qed.

(** A write through an attribute that does not exist stops at the lookup. *)
Lemma send_missing attr (cmd : M string) w :
  attrs w !! attr = None -> class_attrs !! attr = None ->
  send attr cmd w = (Raised (AttributeError attr), w).
Proof.
  intros Hi Hc. unfold send. apply bind_raised.
  apply getattr_missing; assumption.
Qed.

Lemma ask_returns cmd reply w :
  activated w ->
  query_reply (instrument w) (trace w) cmd = Some reply ->
  ask "_usb_connection" cmd w = (Returned reply, record (Queried cmd) w).
Proof.
  intros Hw Hr. unfold ask.
  rewrite (bind_returned _ _ _ _ _ (getattr_instance _ _ _ Hw)).
  cbn [write_method]. rewrite run_bind. cbn [query_method mret M_ret].
  unfold exchange. rewrite Hr. reflexivity.
Qed.

(** A query either comes back, leaving its mark on the trace, or raises
    with nothing sent. *)
Lemma ask_cases attr cmd w :
  (exists reply, ask attr cmd w = (Returned reply, record (Queried cmd) w)) \/
  (exists e, ask attr cmd w = (Raised e, w)).
Proof.
  unfold ask. rewrite run_bind. unfold getattr.
  destruct (attrs w !! attr) as [v|]; [|destruct (class_attrs !! attr) as [v|]].
  3: { right. eexists. reflexivity. }
  all: rewrite run_bind; destruct v; cbn [query_method raise mret M_ret];
    try (right; eexists; reflexivity).
  all: unfold exchange; destruct (query_reply _ _ _) as [reply|];
    [left; exists reply; reflexivity | right; eexists; reflexivity].
Qed.

(** ** The status property *)

(** Reading the property gives the literal ['sweep'] with the flag parsed
    from a fresh reply, or raises. *)
Lemma get_status_cases w :
  (exists reply z,
     query_reply (instrument w) (trace w) "r?" = Some reply /\
     int_of_string (strip reply) = Some z /\
     get_status w =
       (Returned (VTuple [VStr "sweep"; VBool (py_bool z)]),
        record (Queried "r?") w)) \/
  (exists e, get_status w = (Raised e, w)) \/
  (exists e, get_status w = (Raised e, record (Queried "r?") w)).
Proof.
  unfold get_status. rewrite run_bind.
  unfold ask. rewrite run_bind. unfold getattr.
  destruct (attrs w !! "_usb_connection") as [v|] eqn:Hconn.
  2: { right. left. eexists. reflexivity. }
  rewrite run_bind.
  destruct v; cbn [query_method raise mret M_ret];
    try (right; left; eexists; reflexivity).
  unfold exchange.
  destruct (query_reply _ _ _) as [reply|] eqn:Hreply.
  2: { right. left. eexists. reflexivity. }
  rewrite run_bind. unfold py_int.
  destruct (int_of_string (strip reply)) as [z|] eqn:Hz.
  - left. exists reply, z. repeat split; reflexivity || assumption.
  - right. right. eexists. reflexivity.
Qed.

Lemma get_status_returns reply z w :
  activated w ->
  query_reply (instrument w) (trace w) "r?" = Some reply ->
  int_of_string (strip reply) = Some z ->
  get_status w =
    (Returned (VTuple [VStr "sweep"; VBool (py_bool z)]), record (Queried "r?") w).
Proof.
  intros Hw Hreply Hz. unfold get_status.
  rewrite (bind_returned _ _ _ _ _ (ask_returns _ _ _ Hw Hreply)).
  unfold py_int. rewrite Hz. reflexivity.
Qed.

(** Calling what the property gave raises a [TypeError]; nothing but the
    status query has gone out by then. *)
Lemma get_status_called_raises w :
  exists e,
    get_status_called w = (Raised e, w) \/
    get_status_called w = (Raised e, record (Queried "r?") w).
Proof.
  unfold get_status_called.
  destruct (get_status_cases w) as [(reply & z & _ & _ & Hs) | [[e Hs] | [e Hs]]].
  - exists TypeError. right. rewrite (bind_returned _ _ _ _ _ Hs). reflexivity.
  - exists e. left. apply bind_raised. exact Hs.
  - exists e. right. apply bind_raised. exact Hs.
Qed.

Lemma get_status_called_type_error reply z w :
  activated w ->
  query_reply (instrument w) (trace w) "r?" = Some reply ->
  int_of_string (strip reply) = Some z ->
  get_status_called w = (Raised TypeError, record (Queried "r?") w).
Proof.
  intros Hw Hreply Hz. unfold get_status_called.
  rewrite (bind_returned _ _ _ _ _ (get_status_returns _ _ _ Hw Hreply Hz)).
  reflexivity.
Qed.

(** ** Attributes no method assigns *)

Section Untouched.

Variable name : string.

Lemma untouched_mret {A : Type} (a : A) : untouched name (mret a).
Proof. intros w. reflexivity. Qed.

Lemma untouched_raise {A : Type} (e : exn) : untouched name (@raise A e).
Proof. intros w. reflexivity. Qed.

Lemma untouched_unfinished {A : Type} : untouched name (@unfinished A).
Proof. intros w. reflexivity. Qed.

(** Only what [c] can return matters for the rest. *)
Lemma untouched_bind_on {A B : Type} (c : M A) (f : A -> M B) :
  untouched name c ->
  (forall a w w', c w = (Returned a, w') -> untouched name (f a)) ->
  untouched name (c ≫= f).
Proof.
  intros Hc Hf w. rewrite run_bind. specialize (Hc w).
  destruct (c w) as [[a| |] w'] eqn:Hcw; cbn [snd] in *; try exact Hc.
  etransitivity; [apply (Hf a w w' Hcw) | exact Hc].
Qed.

Lemma untouched_bind {A B : Type} (c : M A) (f : A -> M B) :
  untouched name c -> (forall a, untouched name (f a)) ->
  untouched name (c ≫= f).
Proof. intros Hc Hf. apply untouched_bind_on; [exact Hc | intros; apply Hf]. Qed.

Lemma untouched_try_except {A : Type} (body handler : M A) :
  untouched name body -> untouched name handler ->
  untouched name (try_except body handler).
Proof.
  intros Hb Hh w. unfold try_except. specialize (Hb w).
  destruct (body w) as [[a| |] w']; cbn [snd] in *; try exact Hb.
  etransitivity; [apply Hh | exact Hb].
Qed.

Lemma untouched_when b (c : M unit) :
  untouched name c -> untouched name (when b c).
Proof. intros Hc. destruct b; [exact Hc | apply untouched_mret]. Qed.

Lemma untouched_getattr n : untouched name (getattr n).
Proof.
  intros w. unfold getattr.
  destruct (attrs w !! n); [reflexivity|].
  destruct (class_attrs !! n); reflexivity.
Qed.

Lemma untouched_setattr n v : n <> name -> untouched name (setattr n v).
Proof. intros Hn w. cbn. apply lookup_insert_ne. exact Hn. Qed.

Lemma untouched_transmit cmd : untouched name (transmit cmd).
Proof. intros w. unfold transmit. destruct (write_result _ _ _); reflexivity. Qed.

Lemma untouched_exchange cmd : untouched name (exchange cmd).
Proof. intros w. unfold exchange. destruct (query_reply _ _ _); reflexivity. Qed.

Lemma untouched_sleep ms : untouched name (sleep ms).
Proof. intros w. reflexivity. Qed.

Lemma untouched_call v : untouched name (call v).
Proof. destruct v; apply untouched_raise. Qed.

Lemma untouched_unpack2 v : untouched name (unpack2 v).
Proof.
  destruct v as [| | | |s|items| |]; try apply untouched_raise.
  - destruct s as [|a [|b [|c s]]]; apply untouched_raise || apply untouched_mret.
  - destruct items as [|a [|b [|c items]]];
      apply untouched_raise || apply untouched_mret.
Qed.

Lemma untouched_py_int s : untouched name (py_int s).
Proof.
  unfold py_int. destruct (int_of_string s);
    [apply untouched_mret | apply untouched_raise].
Qed.

Lemma untouched_float_of_int z : untouched name (float_of_int z).
Proof.
  unfold float_of_int. destruct (of_Z z);
    apply untouched_mret || apply untouched_raise.
Qed.

Lemma untouched_mul_int v k : untouched name (mul_int v k).
Proof.
  destruct v; cbn [mul_int]; try apply untouched_mret; try apply untouched_raise.
  apply untouched_bind; [apply untouched_float_of_int|].
  intros y. apply untouched_mret.
Qed.

Lemma untouched_fmt_f x : untouched name (fmt_f x).
Proof. destruct x; [apply untouched_mret | apply untouched_raise]. Qed.

Lemma untouched_fmt_e x : untouched name (fmt_e x).
Proof. destruct x; [apply untouched_mret | apply untouched_raise]. Qed.

Lemma untouched_py_float conv v : untouched name (py_float conv v).
Proof.
  destruct v; cbn [py_float]; try apply untouched_mret;
    try apply untouched_raise; try apply untouched_float_of_int.
  destruct (conv s); [apply untouched_mret | apply untouched_raise].
Qed.

Lemma untouched_open_resource rm a t : untouched name (open_resource rm a t).
Proof.
  intros w. unfold open_resource.
  destruct rm; try reflexivity. destruct (opens _ _ _); reflexivity.
Qed.

Lemma untouched_write_method obj : untouched name (write_method obj).
Proof. destruct obj; apply untouched_raise || apply untouched_mret. Qed.

Lemma untouched_query_method obj : untouched name (query_method obj).
Proof. destruct obj; apply untouched_raise || apply untouched_mret. Qed.

Lemma write_method_returns obj wr w w' :
  write_method obj w = (Returned wr, w') -> wr = transmit.
Proof. destruct obj; unfold write_method, raise, mret, M_ret; congruence. Qed.

Lemma query_method_returns obj q w w' :
  query_method obj w = (Returned q, w') -> q = exchange.
Proof. destruct obj; unfold query_method, raise, mret, M_ret; congruence. Qed.

Lemma untouched_send attr (cmd : M string) :
  untouched name cmd -> untouched name (send attr cmd).
Proof.
  intros Hcmd. unfold send.
  apply untouched_bind; [apply untouched_getattr|]. intros conn.
  apply untouched_bind_on; [apply untouched_write_method|].
  intros wr w w' Hwr. rewrite (write_method_returns _ _ _ _ Hwr).
  apply untouched_bind; [exact Hcmd|]. intros s. apply untouched_transmit.
Qed.

Lemma untouched_ask attr cmd : untouched name (ask attr cmd).
Proof.
  unfold ask.
  apply untouched_bind; [apply untouched_getattr|]. intros conn.
  apply untouched_bind_on; [apply untouched_query_method|].
  intros q w w' Hq. rewrite (query_method_returns _ _ _ _ Hq).
  apply untouched_exchange.
Qed.

End Untouched.

(** One step of a frame proof: split the computation at its head. *)
Ltac frame_step :=
  match goal with
  | |- untouched _ (mret _) => apply untouched_mret
  | |- untouched _ (raise _) => apply untouched_raise
  | |- untouched _ unfinished => apply untouched_unfinished
  | |- untouched _ (_ ≫= _) => apply untouched_bind; [|intros]
  | |- untouched _ (try_except _ _) => apply untouched_try_except
  | |- untouched _ (when _ _) => apply untouched_when
  | |- untouched _ (void _) => unfold void
  | |- untouched _ (getattr _) => apply untouched_getattr
  | |- untouched _ (send _ _) => apply untouched_send
  | |- untouched _ (ask _ _) => apply untouched_ask
  | |- untouched _ (sleep _) => apply untouched_sleep
  | |- untouched _ (call _) => apply untouched_call
  | |- untouched _ (unpack2 _) => apply untouched_unpack2
  | |- untouched _ (py_int _) => apply untouched_py_int
  | |- untouched _ (mul_int _ _) => apply untouched_mul_int
  | |- untouched _ (fmt_f _) => apply untouched_fmt_f
  | |- untouched _ (fmt_e _) => apply untouched_fmt_e
  | |- untouched _ (py_float _ _) => apply untouched_py_float
  | |- untouched _ (open_resource _ _ _) => apply untouched_open_resource
  | H : ?name ∉ assigned |- untouched ?name (setattr _ _) =>
      apply untouched_setattr; intros <-; apply H; unfold assigned; set_solver
  | |- untouched _ (match ?x with _ => _ end) => destruct x
  end.

Ltac frame := repeat frame_step.

Section Unassigned.

Variable name : string.
Hypothesis unassigned : name ∉ assigned.

Lemma untouched_on_activate : untouched name on_activate.
Proof. unfold on_activate. frame. Qed.

Lemma untouched_on : untouched name on.
Proof. unfold on. frame. Qed.

Lemma untouched_off : untouched name off.
Proof. unfold off. frame. Qed.

Lemma untouched_get_status : untouched name get_status.
Proof. unfold get_status. frame. Qed.

Lemma untouched_get_status_called : untouched name get_status_called.
Proof. unfold get_status_called. frame. apply untouched_get_status. Qed.

Lemma untouched_set_power power : untouched name (set_power power).
Proof. unfold set_power. frame. Qed.

Lemma untouched_set_frequency freq : untouched name (set_frequency freq).
Proof. unfold set_frequency. frame. Qed.

Lemma untouched_cw_on_wait fuel is_running :
  untouched name (cw_on_wait fuel is_running).
Proof.
  revert is_running. induction fuel as [|k IH]; intros is_running;
    cbn [cw_on_wait]; destruct (truthy is_running); frame.
  - apply untouched_get_status_called.
  - apply IH.
Qed.

Lemma untouched_cw_on_enable fuel : untouched name (cw_on_enable fuel).
Proof.
  unfold cw_on_enable. frame.
  - apply untouched_get_status_called.
  - apply untouched_cw_on_wait.
Qed.

Lemma untouched_cw_on fuel : untouched name (cw_on fuel).
Proof.
  unfold cw_on. frame;
    try apply untouched_get_status_called;
    try apply untouched_off;
    apply untouched_cw_on_enable.
Qed.

Lemma untouched_get_power conv : untouched name (get_power conv).
Proof. unfold get_power. frame. Qed.

Lemma untouched_get_frequency conv : untouched name (get_frequency conv).
Proof. unfold get_frequency. frame. Qed.

Lemma untouched_set_cw conv frequency power :
  untouched name (set_cw conv frequency power).
Proof.
  unfold set_cw. frame;
    try apply untouched_get_status_called;
    try apply untouched_off;
    try apply untouched_get_frequency;
    apply untouched_get_power.
Qed.

Lemma untouched_set_list freq power : untouched name (set_list freq power).
Proof. unfold set_list, py_len, first_item, last_item. frame. Qed.

Lemma untouched_set_sweep repr start stop step power :
  untouched name (set_sweep repr start stop step power).
Proof. unfold set_sweep. frame. Qed.

Lemma untouched_set_ext_trigger pol : untouched name (set_ext_trigger pol).
Proof. unfold set_ext_trigger. cbv zeta. frame. Qed.

Lemma untouched_serve conv repr fuel r : untouched name (serve conv repr fuel r).
Proof.
  destruct r; cbn [serve]; unfold void, set_power_call, set_frequency_call.
  all: try (apply untouched_bind; [|intros; apply untouched_mret]).
  - apply untouched_on_activate.
  - apply untouched_on.
  - apply untouched_off.
  - apply untouched_get_status.
  - apply untouched_get_power.
  - apply untouched_set_power.
  - apply untouched_get_frequency.
  - apply untouched_set_frequency.
  - apply untouched_cw_on.
  - apply untouched_set_cw.
  - apply untouched_set_list.
  - unfold reset_listpos. frame.
  - unfold reset_sweeppos. frame.
  - apply untouched_set_sweep.
  - unfold reset_sweep. frame.
  - unfold sweep_on. frame.
  - unfold list_on. frame.
  - apply untouched_set_ext_trigger.
Qed.

(** No sequence of requests creates the attribute. *)
Lemma after_unassigned conv repr fuel rs w :
  attrs (after conv repr fuel rs w) !! name = attrs w !! name.
Proof.
  revert w. induction rs as [|r rs IH]; intros w; [reflexivity|].
  cbn [after fold_left]. etransitivity; [apply IH|].
  apply untouched_serve.
Qed.

End Unassigned.

Lemma gpib_connection_unassigned : "_gpib_connection" ∉ assigned.
Proof.
  unfold assigned. intros H.
  repeat (apply elem_of_cons in H as [H|H]; [discriminate|]).
  exact (proj1 (elem_of_nil _) H).
Qed.

Lemma mangled_connection :
  mangle class_name "__usb_connection" = "_MicrowaveWindfreak__usb_connection".
Proof. reflexivity. Qed.

Lemma mangled_connection_unassigned :
  mangle class_name "__usb_connection" ∉ assigned.
Proof.
  rewrite mangled_connection. unfold assigned. intros H.
  repeat (apply elem_of_cons in H as [H|H]; [discriminate|]).
  exact (proj1 (elem_of_nil _) H).
Qed.

(** ** The setters *)

Lemma set_frequency_none w : set_frequency None w = (Returned (-1), w).
Proof. reflexivity. Qed.

Lemma set_frequency_writes x w :
  activated w -> accepts_writes (instrument w) ->
  set_frequency (Some x) w =
    (Returned 0, record (Wrote ("f" +:+ format_e x +:+ " MHz")) w).
Proof.
  intros Hw Hacc. unfold set_frequency.
  rewrite send_then with (s := "f" +:+ format_e x +:+ " MHz");
    auto; reflexivity.
Qed.

Lemma set_power_none w : set_power None w = (Returned (-1), w).
Proof. reflexivity. Qed.

Lemma set_power_writes x w :
  activated w -> accepts_writes (instrument w) ->
  set_power (Some x) w = (Returned 0, record (Wrote ("W" +:+ format_f x)) w).
Proof.
  intros Hw Hacc. unfold set_power.
  rewrite send_then with (s := "W" +:+ format_f x); auto; reflexivity.
Qed.

(** A setter that was given a value never answers with the error code. *)
Lemma set_frequency_some_not_error x w :
  fst (set_frequency (Some x) w) <> Returned (-1).
Proof.
  unfold set_frequency. rewrite run_bind.
  destruct (send _ _ w) as [[v| |] w']; cbn; discriminate.
Qed.

(** ** The mode methods *)

Lemma cw_on_raises fuel w :
  exists e,
    cw_on fuel w = (Raised e, w) \/
    cw_on fuel w = (Raised e, record (Queried "r?") w).
Proof.
  destruct (get_status_called_raises w) as [e [H|H]]; exists e; [left|right];
    unfold cw_on; apply bind_raised; exact H.
Qed.

Lemma cw_on_type_error fuel reply z w :
  activated w ->
  query_reply (instrument w) (trace w) "r?" = Some reply ->
  int_of_string (strip reply) = Some z ->
  cw_on fuel w = (Raised TypeError, record (Queried "r?") w).
Proof.
  intros Hw Hreply Hz. unfold cw_on. apply bind_raised.
  apply get_status_called_type_error with (reply := reply) (z := z); assumption.
Qed.

Lemma set_cw_raises conv frequency power w :
  exists e,
    set_cw conv frequency power w = (Raised e, w) \/
    set_cw conv frequency power w = (Raised e, record (Queried "r?") w).
Proof.
  destruct (get_status_called_raises w) as [e [H|H]]; exists e; [left|right];
    unfold set_cw; apply bind_raised; exact H.
Qed.

Lemma set_cw_type_error conv frequency power reply z w :
  activated w ->
  query_reply (instrument w) (trace w) "r?" = Some reply ->
  int_of_string (strip reply) = Some z ->
  set_cw conv frequency power w = (Raised TypeError, record (Queried "r?") w).
Proof.
  intros Hw Hreply Hz. unfold set_cw. apply bind_raised.
  apply get_status_called_type_error with (reply := reply) (z := z); assumption.
Qed.

Lemma set_sweep_missing repr start stop step power w :
  attrs w !! "_gpib_connection" = None ->
  set_sweep repr start stop step power w =
    (Raised (AttributeError "_gpib_connection"), w).
Proof.
  intros Hnone. unfold set_sweep. apply bind_raised.
  apply send_missing; [exact Hnone | reflexivity].
Qed.

Lemma cw_on_enable_missing fuel w :
  attrs w !! "internal_mode" = Some (VStr "cw") ->
  attrs w !! mangle class_name "__usb_connection" = None ->
  cw_on_enable fuel w =
    (Raised (AttributeError "_MicrowaveWindfreak__usb_connection"), w).
Proof.
  intros Hmode Hnone. unfold cw_on_enable.
  rewrite (bind_returned _ _ _ _ _ (getattr_instance _ _ _ Hmode)).
  cbn [eq_str String.eqb Ascii.eqb Bool.eqb negb when].
  rewrite run_bind. cbn [mret M_ret]. apply bind_raised.
  apply send_missing; [exact Hnone | reflexivity].
Qed.

(** The closing loop of [cw_on] has two ways out, neither of them an error
    code: the flag it holds is true, or a poll raises. *)
Lemma cw_on_wait_running fuel is_running w :
  truthy is_running = true -> cw_on_wait fuel is_running w = (Returned 0, w).
Proof. intros Ht. destruct fuel; cbn [cw_on_wait]; rewrite Ht; reflexivity. Qed.

Lemma cw_on_wait_no_error_code fuel is_running w :
  fst (cw_on_wait fuel is_running w) <> Returned (-1).
Proof.
  destruct (truthy is_running) eqn:Ht.
  - rewrite cw_on_wait_running by exact Ht. discriminate.
  - destruct fuel as [|k]; cbn [cw_on_wait]; rewrite Ht; [discriminate|].
    rewrite run_bind. cbn [sleep]. rewrite run_bind.
    destruct (get_status_called_raises (record (Slept 200) w)) as [e [H|H]];
      rewrite H; discriminate.
Qed.

(** ** List mode *)

Lemma trace_record e w : trace (record e w) = trace w ++ [e].
Proof. reflexivity. Qed.

Lemma last_of_cons {A : Type} (x : A) (l : list A) :
  last (x :: l) = Some (default x (last l)).
Proof.
  destruct l as [|y l]; [reflexivity|].
  rewrite last_cons_cons.
  destruct (last (y :: l)) as [z|] eqn:Hlast; [reflexivity|].
  apply last_None in Hlast. discriminate.
Qed.

(** [set_list] on a non-empty list and a power: nine writes, in this order,
    and the mode attribute set to ['list']. *)
Lemma set_list_writes x l p w :
  activated w -> accepts_writes (instrument w) ->
  exists w',
    set_list (Some (x :: l)) (Some p) w = (Returned 0, w') /\
    trace w' = trace w ++
      [Wrote "X0";
       Wrote ("l" +:+ format_e x);
       Wrote ("u" +:+ format_e (default x (last l)));
       Wrote ("s" +:+ pretty (Z.of_nat (length (x :: l))));
       Wrote "t10.00";
       Wrote ("[" +:+ format_f p);
       Wrote ("]" +:+ format_f p);
       Wrote "^1";
       Wrote "g1"] /\
    attrs w' = <["internal_mode" := VStr "list"]> (attrs w) /\
    instrument w' = instrument w.
Proof.
  intros Hw Hacc. eexists. split.
  - unfold set_list. rewrite run_bind. cbn [py_len mret M_ret].
    rewrite send_then with (s := "X0"); [|assumption|assumption|reflexivity].
    rewrite send_then with (s := "l" +:+ format_e x);
      [|assumption|assumption|reflexivity].
    rewrite send_then with (s := "u" +:+ format_e (default x (last l)));
      [|assumption|assumption|].
    2: { rewrite run_bind. unfold last_item.
         rewrite (last_of_cons x l). reflexivity. }
    rewrite send_then with (s := "s" +:+ pretty (Z.of_nat (length (x :: l))));
      [|assumption|assumption|reflexivity].
    rewrite send_then with (s := "t10.00"); [|assumption|assumption|reflexivity].
    rewrite send_then with (s := "[" +:+ format_f p);
      [|assumption|assumption|reflexivity].
    rewrite send_then with (s := "]" +:+ format_f p);
      [|assumption|assumption|reflexivity].
    rewrite send_then with (s := "^1"); [|assumption|assumption|reflexivity].
    rewrite send_then with (s := "g1"); [|assumption|assumption|reflexivity].
    reflexivity.
  - cbn [trace attrs instrument with_attrs record snd].
    repeat rewrite <- app_assoc. repeat split; reflexivity.
Qed.

(** ** The simulated instrument *)

Lemma lab_instrument status : instrument (lab status) = bench status.
Proof. reflexivity. Qed.

Lemma lab_activated status : activated (lab status).
Proof. reflexivity. Qed.

Lemma lab_cw_activated status : activated (lab_cw status).
Proof. reflexivity. Qed.

Lemma lab_cw_mode status :
  attrs (lab_cw status) !! "internal_mode" = Some (VStr "cw").
Proof. reflexivity. Qed.

Lemma bench_accepts status : accepts_writes (bench status).
Proof. intros history cmd. eexists. reflexivity. Qed.

Lemma bench_idle_never_running : never_running (bench "0").
Proof. intros history. exists ("0" +:+ newline). split; reflexivity. Qed.

(** * The claims *)

(** C1 (the code departs from it).  The claim: with the device already
    running in CW mode, [cw_on] returns 0 and sends no stop or enable
    command.  The code: in every such state whose status query is answered
    with a number, [cw_on] raises a [TypeError] and returns nothing; the
    status query is all that went out. *)
Theorem cw_on_already_running_raises fuel reply z w :
  activated w ->
  attrs w !! "internal_mode" = Some (VStr "cw") ->
  query_reply (instrument w) (trace w) "r?" = Some reply ->
  int_of_string (strip reply) = Some z ->
  py_bool z = true ->
  cw_on fuel w = (Raised TypeError, record (Queried "r?") w) /\
  fst (cw_on fuel w) <> Returned 0.
Proof.
  intros Hw _ Hreply Hz _.
  rewrite (cw_on_type_error fuel reply z w Hw Hreply Hz).
  split; [reflexivity | discriminate].
Qed.

Lemma cw_on_already_running_raises_witness :
  cw_on 3 (lab_cw "1") =
    (Raised TypeError, record (Queried "r?") (lab_cw "1")) /\
  fst (cw_on 3 (lab_cw "1")) <> Returned 0.
Proof.
  apply (cw_on_already_running_raises 3 ("1" +:+ newline) 1 (lab_cw "1")).
  - reflexivity.
  - reflexivity.
  - reflexivity.
  - reflexivity.
  - reflexivity.
Defined.

(** C2 (as the code has it).  On an activated adapter whose device always
    answers the status query and never reports the running flag as true,
    [cw_on] does not end with a timeout failure, however many polls are
    followed: it neither returns the error code -1 nor raises the
    transport's timeout error.  The source has no timeout.  Nor has the
    closing loop of [cw_on] on such a device: it has no exit that reports a
    timeout, it returns 0 at once when the flag it holds is true, and when
    the flag is false a round begins with a pause of 200 ms. *)
Theorem cw_on_never_times_out w :
  activated w ->
  never_running (instrument w) ->
  (forall fuel, ~ timeout_failure (fst (cw_on fuel w))) /\
  (forall fuel is_running,
     ~ timeout_failure (fst (cw_on_wait fuel is_running w))) /\
  (forall fuel is_running,
     truthy is_running = true ->
     cw_on_wait fuel is_running w = (Returned 0, w)) /\
  (forall fuel is_running,
     truthy is_running = false ->
     exists events,
       trace (snd (cw_on_wait (S fuel) is_running w)) =
         trace w ++ Slept 200 :: events).
Proof.
  intros Hw Hidle. split; [|split; [|split]].
  - intros fuel. destruct (Hidle (trace w)) as (reply & Hreply & Hz).
    rewrite (cw_on_type_error fuel reply 0 w Hw Hreply Hz).
    intros [H|H]; discriminate H.
  - intros fuel is_running. destruct (truthy is_running) eqn:Ht.
    + rewrite cw_on_wait_running by exact Ht. intros [H|H]; discriminate H.
    + destruct fuel as [|k]; cbn [cw_on_wait]; rewrite Ht.
      * intros [H|H]; discriminate H.
      * rewrite run_bind. cbn [sleep]. rewrite run_bind.
        destruct (Hidle (trace (record (Slept 200) w)))
          as (reply & Hreply & Hz).
        rewrite (get_status_called_type_error reply 0 (record (Slept 200) w)
                   (activated_record _ _ Hw) Hreply Hz).
        intros [H|H]; discriminate H.
  - intros fuel is_running Ht. apply cw_on_wait_running. exact Ht.
  - intros fuel is_running Ht. cbn [cw_on_wait]. rewrite Ht.
    rewrite run_bind. cbn [sleep]. rewrite run_bind.
    destruct (get_status_called_raises (record (Slept 200) w)) as [e [H|H]];
      rewrite H; cbn [snd trace record].
    + exists []. reflexivity.
    + exists [Queried "r?"]. rewrite <- app_assoc. reflexivity.
Qed.

Lemma cw_on_never_times_out_witness :
  ~ timeout_failure (fst (cw_on 5 (lab "0"))) /\
  ~ timeout_failure (fst (cw_on_wait 5 (VBool false) (lab "0"))) /\
  cw_on_wait 5 (VBool true) (lab "0") = (Returned 0, lab "0") /\
  exists events,
    trace (snd (cw_on_wait 1 (VBool false) (lab "0"))) =
      trace (lab "0") ++ Slept 200 :: events.
Proof.
  destruct (cw_on_never_times_out (lab "0")) as (Hon & Hwait & Hrun & Hpause).
  - reflexivity.
  - exact bench_idle_never_running.
  - split; [exact (Hon 5%nat)|].
    split; [exact (Hwait 5%nat (VBool false))|].
    split; [exact (Hrun 5%nat (VBool true) eq_refl)|].
    exact (Hpause 0%nat (VBool false) eq_refl).
Defined.

(** C2, the claim as stated fails: the bench never reports running, yet
    [cw_on] ends without any timeout failure, before a single pause, for
    every bound on the polls. *)
Lemma cw_on_idle_bench_no_timeout :
  activated (lab "0") /\
  never_running (instrument (lab "0")) /\
  ~ (exists fuel, timeout_failure (fst (cw_on fuel (lab "0")))) /\
  (forall fuel,
     cw_on fuel (lab "0") = (Raised TypeError, record (Queried "r?") (lab "0"))).
Proof.
  assert (Hrun : forall fuel,
    cw_on fuel (lab "0") = (Raised TypeError, record (Queried "r?") (lab "0"))).
  { intros fuel.
    apply (cw_on_type_error fuel ("0" +:+ newline) 0); reflexivity. }
  split; [reflexivity|]. split; [exact bench_idle_never_running|].
  split; [|exact Hrun].
  intros [fuel [H|H]]; rewrite Hrun in H; discriminate.
Qed.

(** C3 (the code departs from it).  The claim: [set_cw] stops the device if
    running, switches to CW, writes frequency and power when given, and
    returns the values read back.  The code: whenever the status query is
    answered with a number, [set_cw] raises a [TypeError] right after that
    query; nothing is written and nothing is returned. *)
Theorem set_cw_raises_type_error conv frequency power reply z w :
  activated w ->
  query_reply (instrument w) (trace w) "r?" = Some reply ->
  int_of_string (strip reply) = Some z ->
  set_cw conv frequency power w =
    (Raised TypeError, record (Queried "r?") w).
Proof. apply set_cw_type_error. Qed.

Lemma set_cw_raises_type_error_witness :
  set_cw (fun _ => None) (Some (of_Z 2870000000)) (Some (of_Z (-10))) (lab "0") =
    (Raised TypeError, record (Queried "r?") (lab "0")).
Proof.
  apply (set_cw_raises_type_error (fun _ => None) (Some (of_Z 2870000000))
           (Some (of_Z (-10))) ("0" +:+ newline) 0 (lab "0")).
  - reflexivity.
  - reflexivity.
  - reflexivity.
Defined.

(** C4.  [cw_on], [set_cw] and [set_sweep] always raise and never return.
    [cw_on] and [set_cw] stop at [self.get_status()]: reading the property
    already gives the pair, and calling the pair is a [TypeError]; by then
    nothing but the status query has gone out.  What follows in [cw_on]
    would stop at the name-mangled attribute, which no method assigns.
    [set_sweep] stops at [_gpib_connection], which no method assigns either,
    with nothing sent: so it is after any requests whatever, on an instance
    that did not carry the attribute to begin with. *)
Theorem mode_methods_always_raise :
  (forall fuel w, exists e,
     cw_on fuel w = (Raised e, w) \/
     cw_on fuel w = (Raised e, record (Queried "r?") w)) /\
  (forall conv frequency power w, exists e,
     set_cw conv frequency power w = (Raised e, w) \/
     set_cw conv frequency power w = (Raised e, record (Queried "r?") w)) /\
  (forall w,
     get_status_called w =
       match get_status w with
       | (Returned _, w') => (Raised TypeError, w')
       | other => other
       end) /\
  (forall conv repr fuel rs n w0,
     attrs w0 !! "_MicrowaveWindfreak__usb_connection" = None ->
     let w := with_attrs (insert "internal_mode" (VStr "cw"))
                (after conv repr fuel rs w0) in
     cw_on_enable n w =
       (Raised (AttributeError "_MicrowaveWindfreak__usb_connection"), w)) /\
  (forall conv repr fuel rs start stop step power w0,
     attrs w0 !! "_gpib_connection" = None ->
     let w := after conv repr fuel rs w0 in
     set_sweep repr start stop step power w =
       (Raised (AttributeError "_gpib_connection"), w)).
Proof.
  split; [exact cw_on_raises|].
  split; [exact set_cw_raises|].
  split; [|split].
  - intros w. unfold get_status_called. rewrite run_bind.
    destruct (get_status w) as [[v| |] w']; [|reflexivity|reflexivity].
    destruct v; reflexivity.
  - intros conv repr fuel rs n w0 Hnone w.
    apply cw_on_enable_missing.
    + subst w. cbn [attrs with_attrs]. apply lookup_insert_eq.
    + subst w. cbn [attrs with_attrs].
      rewrite lookup_insert_ne by (rewrite mangled_connection; discriminate).
      rewrite (after_unassigned _ mangled_connection_unassigned).
      exact Hnone.
  - intros conv repr fuel rs start stop step power w0 Hnone w.
    apply set_sweep_missing. subst w.
    rewrite (after_unassigned _ gpib_connection_unassigned).
    exact Hnone.
Qed.

Lemma mode_methods_always_raise_witness :
  let w := after (fun _ => None) (fun _ => "1e9") 3%nat
             [OnActivate; SweepOn; CwOn; SetExtTrigger RISING]
             (configured "ASRL3::INSTR" 10 (bench "0")) in
  set_sweep (fun _ => "1e9") (GHz 10) (GHz 20) (of_Z 1000000) (of_Z (-10)) w =
    (Raised (AttributeError "_gpib_connection"), w).
Proof.
  apply (proj2 (proj2 (proj2 (proj2 mode_methods_always_raise)))
           (fun _ => None) (fun _ => "1e9") 3%nat
           [OnActivate; SweepOn; CwOn; SetExtTrigger RISING]
           (GHz 10) (GHz 20) (of_Z 1000000) (of_Z (-10))
           (configured "ASRL3::INSTR" 10 (bench "0"))).
  reflexivity.
Defined.

(** C5 (the code departs from it).  The claim: [get_status] reports the mode
    last written by a mode switch, 'list' after a successful [set_list].
    The code: the mode it reports is the literal 'sweep' whatever happened
    before; on the bench, after [set_list] has returned 0 and set the mode
    attribute to 'list', [get_status] still says 'sweep'.  The running flag
    does come from a fresh status query each time. *)
Theorem get_status_mode_is_always_sweep :
  (forall w,
     (exists reply z,
        query_reply (instrument w) (trace w) "r?" = Some reply /\
        int_of_string (strip reply) = Some z /\
        get_status w =
          (Returned (VTuple [VStr "sweep"; VBool (py_bool z)]),
           record (Queried "r?") w)) \/
     (exists e w', get_status w = (Raised e, w'))) /\
  (let listed :=
     set_list (Some [GHz 10; GHz 15; GHz 20]) (Some (of_Z (-10))) (lab "0") in
   fst listed = Returned 0 /\
   attrs (snd listed) !! "internal_mode" = Some (VStr "list") /\
   fst (get_status (snd listed)) =
     Returned (VTuple [VStr "sweep"; VBool false])).
Proof.
  split.
  - intros w.
    destruct (get_status_cases w) as [H | [[e H] | [e H]]];
      [left; exact H | right; eauto | right; eauto].
  - vm_compute. repeat split; reflexivity.
Qed.

(** C6 (the code departs from it).  The claim: the rising and the falling
    edge are sent as two distinct command strings.  The code: the two calls
    behave alike in every state, and on a working connection each sends the
    same string "w1" and returns 0. *)
Theorem set_ext_trigger_edges_coincide :
  (forall w, set_ext_trigger FALLING w = set_ext_trigger RISING w) /\
  (forall w, activated w -> accepts_writes (instrument w) ->
     set_ext_trigger RISING w = (Returned 0, record (Wrote "w1") w) /\
     set_ext_trigger FALLING w = (Returned 0, record (Wrote "w1") w)).
Proof.
  split; [reflexivity|].
  intros w Hw Hacc.
  assert (H : set_ext_trigger RISING w = (Returned 0, record (Wrote "w1") w)).
  { unfold set_ext_trigger. rewrite decide_True by reflexivity.
    rewrite run_bind. unfold try_except.
    rewrite send_then with (s := "w1");
      [reflexivity | assumption | assumption | reflexivity]. }
  split; exact H.
Qed.

Lemma set_ext_trigger_edges_coincide_witness :
  set_ext_trigger RISING (lab "0") =
    (Returned 0, record (Wrote "w1") (lab "0")) /\
  set_ext_trigger FALLING (lab "0") =
    (Returned 0, record (Wrote "w1") (lab "0")).
Proof.
  apply (proj2 set_ext_trigger_edges_coincide (lab "0")).
  - reflexivity.
  - exact (bench_accepts "0").
Defined.

(** C7.  [set_list] with the frequencies 1e9, 1.5e9, 2e9 and the power -10,
    on an activated adapter whose transport takes the writes, sends the
    lower bound 1e9 (the first entry), the upper bound 2e9 (the last entry),
    the entry count 3 and the power -10 with both bound-power commands, and
    returns 0. *)
Theorem set_list_three_frequencies w :
  activated w -> accepts_writes (instrument w) ->
  exists w',
    set_list (Some [GHz 10; GHz 15; GHz 20]) (Some (of_Z (-10))) w =
      (Returned 0, w') /\
    trace w' = trace w ++
      [Wrote "X0";
       Wrote "l1.000000e+09";
       Wrote "u2.000000e+09";
       Wrote "s3";
       Wrote "t10.00";
       Wrote "[-10.000000";
       Wrote "]-10.000000";
       Wrote "^1";
       Wrote "g1"] /\
    attrs w' = <["internal_mode" := VStr "list"]> (attrs w).
Proof.
  intros Hw Hacc.
  destruct (set_list_writes (GHz 10) [GHz 15; GHz 20] (of_Z (-10)) w Hw Hacc)
    as (w' & Hrun & Htrace & Hattrs & _).
  exists w'. split; [exact Hrun|]. split; [|exact Hattrs].
  rewrite Htrace. reflexivity.
Qed.

Lemma set_list_three_frequencies_witness :
  exists w',
    set_list (Some [GHz 10; GHz 15; GHz 20]) (Some (of_Z (-10))) (lab "0") =
      (Returned 0, w') /\
    trace w' = trace (lab "0") ++
      [Wrote "X0";
       Wrote "l1.000000e+09";
       Wrote "u2.000000e+09";
       Wrote "s3";
       Wrote "t10.00";
       Wrote "[-10.000000";
       Wrote "]-10.000000";
       Wrote "^1";
       Wrote "g1"] /\
    attrs w' = <["internal_mode" := VStr "list"]> (attrs (lab "0")).
Proof.
  apply (set_list_three_frequencies (lab "0")).
  - reflexivity.
  - exact (bench_accepts "0").
Defined.

(** C8 (as the code has it).  The setters make no range check: for every
    frequency outside [min_frequency, max_frequency] and every power outside
    [min_power, max_power] of [get_limits], on an activated adapter whose
    transport takes the write, [set_frequency] and [set_power] send the
    encoded command and return 0. *)
Theorem setters_do_not_check_limits f p w :
  activated w -> accepts_writes (instrument w) ->
  frequency_in_range f = false ->
  power_in_range p = false ->
  set_frequency (Some f) w =
    (Returned 0, record (Wrote ("f" +:+ format_e f +:+ " MHz")) w) /\
  set_power (Some p) w =
    (Returned 0, record (Wrote ("W" +:+ format_f p)) w).
Proof.
  intros Hw Hacc _ _. split.
  - apply set_frequency_writes; assumption.
  - apply set_power_writes; assumption.
Qed.

Lemma setters_do_not_check_limits_witness :
  set_frequency (Some (of_Z 1)) (lab "0") =
    (Returned 0,
     record (Wrote ("f" +:+ format_e (of_Z 1) +:+ " MHz")) (lab "0")) /\
  set_power (Some (of_Z 100)) (lab "0") =
    (Returned 0, record (Wrote ("W" +:+ format_f (of_Z 100))) (lab "0")).
Proof.
  apply (setters_do_not_check_limits (of_Z 1) (of_Z 100) (lab "0")).
  - reflexivity.
  - exact (bench_accepts "0").
  - reflexivity.
  - reflexivity.
Defined.

(** C8, the claim as stated fails: 1 Hz lies below the lowest frequency and
    100 dBm above the highest power, yet both setters return 0 and the
    command is on the wire. *)
Lemma out_of_range_values_are_written :
  frequency_in_range (of_Z 1) = false /\
  set_frequency (Some (of_Z 1)) (lab "0") =
    (Returned 0, record (Wrote "f1.000000e+00 MHz") (lab "0")) /\
  power_in_range (of_Z 100) = false /\
  set_power (Some (of_Z 100)) (lab "0") =
    (Returned 0, record (Wrote "W100.000000") (lab "0")).
Proof.
  split; [reflexivity|]. split; [|split; [reflexivity|]].
  - rewrite set_frequency_writes;
      [reflexivity | reflexivity | exact (bench_accepts "0")].
  - rewrite set_power_writes;
      [reflexivity | reflexivity | exact (bench_accepts "0")].
Qed.

(** C9.  On an activated adapter whose transport takes the write,
    [set_frequency] answers with the error code -1 exactly when it is given
    no value, and then nothing is sent; given a frequency it sends the
    encoded command, asks nothing back and returns 0. *)
Theorem set_frequency_error_only_without_value w :
  activated w -> accepts_writes (instrument w) ->
  set_frequency None w = (Returned (-1), w) /\
  set_frequency_call None w = (Returned (-1), w) /\
  (forall x,
     set_frequency (Some x) w =
       (Returned 0, record (Wrote ("f" +:+ format_e x +:+ " MHz")) w)) /\
  (forall freq, fst (set_frequency freq w) = Returned (-1) <-> freq = None).
Proof.
  intros Hw Hacc. split; [reflexivity|]. split; [reflexivity|]. split.
  - intros x. apply set_frequency_writes; assumption.
  - intros [x|]; split; intros H; try reflexivity; try discriminate.
    exfalso. exact (set_frequency_some_not_error x w H).
Qed.

Lemma set_frequency_error_only_without_value_witness :
  set_frequency None (lab "0") = (Returned (-1), lab "0") /\
  set_frequency (Some (GHz 10)) (lab "0") =
    (Returned 0,
     record (Wrote ("f" +:+ format_e (GHz 10) +:+ " MHz")) (lab "0")).
Proof.
  destruct (set_frequency_error_only_without_value (lab "0"))
    as (Hnone & _ & Hsome & _).
  - reflexivity.
  - exact (bench_accepts "0").
  - split; [exact Hnone | exact (Hsome (GHz 10))].
Defined.

(** C10 (as the code has it).  On an activated adapter whose transport takes
    the write, [set_power] answers with the error code -1 when the power is
    [None], and then nothing is sent; given a power it sends the encoded
    command and returns 0; called without a power argument it takes the
    default 0.0 of its signature, sends "W0.000000" and returns 0. *)
Theorem set_power_error_only_for_none w :
  activated w -> accepts_writes (instrument w) ->
  set_power None w = (Returned (-1), w) /\
  (forall x,
     set_power (Some x) w =
       (Returned 0, record (Wrote ("W" +:+ format_f x)) w)) /\
  set_power_call None w = (Returned 0, record (Wrote "W0.000000") w) /\
  (forall power, set_power_call (Some power) w = set_power power w).
Proof.
  intros Hw Hacc. split; [reflexivity|]. split; [|split].
  - intros x. apply set_power_writes; assumption.
  - unfold set_power_call. cbn [default].
    rewrite set_power_writes by assumption. reflexivity.
  - reflexivity.
Qed.

Lemma set_power_error_only_for_none_witness :
  set_power None (lab "0") = (Returned (-1), lab "0") /\
  set_power_call None (lab "0") =
    (Returned 0, record (Wrote "W0.000000") (lab "0")).
Proof.
  destruct (set_power_error_only_for_none (lab "0"))
    as (Hnone & _ & Hdefault & _).
  - reflexivity.
  - exact (bench_accepts "0").
  - split; [exact Hnone | exact Hdefault].
Defined.

(** C10, the claim as stated fails: called without a power argument,
    [set_power] does not answer with an error code; it returns 0 and
    "W0.000000" is on the wire. *)
Lemma set_power_without_argument_succeeds :
  set_power_call None (lab "0") =
    (Returned 0, record (Wrote "W0.000000") (lab "0")) /\
  fst (set_power_call None (lab "0")) <> Returned (-1).
Proof.
  assert (H : set_power_call None (lab "0") =
                (Returned 0, record (Wrote "W0.000000") (lab "0"))).
  { unfold set_power_call. cbn [default].
    rewrite set_power_writes;
      [reflexivity | reflexivity | exact (bench_accepts "0")]. }
  split; [exact H|]. rewrite H. discriminate.
Qed.

(** * Further properties of the adapter *)

(** ** One write at a time *)

(** A write through any attribute goes out whole, or raises with nothing
    put on the wire. *)
Lemma send_cases attr s w :
  (exists v,
     write_result (instrument w) (trace w) s = Some v /\
     send attr (mret s) w = (Returned v, record (Wrote s) w)) \/
  (exists e, send attr (mret s) w = (Raised e, w)).
Proof.
  unfold send. rewrite run_bind. unfold getattr.
  destruct (attrs w !! attr) as [v|];
    [|destruct (class_attrs !! attr) as [v|]].
  3: { right. eexists. reflexivity. }
  all: rewrite run_bind;
    destruct v; cbn [write_method raise mret M_ret];
    try (right; eexists; reflexivity).
  all: rewrite run_bind; cbn [mret M_ret]; unfold transmit;
    destruct (write_result _ _ _) as [v|] eqn:Hv;
    [left; exists v; split; reflexivity | right; eexists; reflexivity].
Qed.

Lemma send_refused s w :
  activated w ->
  write_result (instrument w) (trace w) s = None ->
  send "_usb_connection" (mret s) w = (Raised VisaIOError, w).
Proof.
  intros Hw Hnone. unfold send.
  rewrite (bind_returned _ _ _ _ _ (getattr_instance _ _ _ Hw)).
  cbn [write_method]. rewrite run_bind. cbn [mret M_ret].
  rewrite run_bind. cbn [mret M_ret]. unfold transmit. rewrite Hnone.
  reflexivity.
Qed.

Lemma send_inactive (cmd : M string) w :
  attrs w !! "_usb_connection" = None ->
  send "_usb_connection" cmd w = (Raised (AttributeError "_usb_connection"), w).
Proof. intros Hnone. apply send_missing; [exact Hnone | reflexivity]. Qed.


(** A write through the attribute [attr], when it holds an open session. *)
Lemma send_then_via {B : Type} attr (cmd : M string) (k : M B) s w :
  attrs w !! attr = Some VConnection ->
  accepts_writes (instrument w) ->
  cmd w = (Returned s, w) ->
  (send attr cmd;; k) w = k (record (Wrote s) w).
Proof.
  intros Hattr Hacc Hcmd. destruct (Hacc (trace w) s) as [v Hv].
  apply bind_returned with (a := v). unfold send.
  rewrite (bind_returned _ _ _ _ _ (getattr_instance _ _ _ Hattr)).
  cbn [write_method]. rewrite run_bind. cbn [mret M_ret].
  rewrite run_bind, Hcmd. unfold transmit. rewrite Hv. reflexivity.
Qed.

(** ** Status codes and exceptions *)

(** The plain command methods report success or raise; the error code -1 of
    their docstrings is never returned.  [sweep_on] reports success as 1,
    the others as 0. *)
Theorem command_methods_return_success_or_raise w :
  (fst (on w) = Returned 0 \/ exists e, fst (on w) = Raised e) /\
  (fst (off w) = Returned 0 \/ exists e, fst (off w) = Raised e) /\
  (fst (reset_listpos w) = Returned 0 \/
   exists e, fst (reset_listpos w) = Raised e) /\
  (fst (reset_sweeppos w) = Returned 0 \/
   exists e, fst (reset_sweeppos w) = Raised e) /\
  (fst (reset_sweep w) = Returned 0 \/
   exists e, fst (reset_sweep w) = Raised e) /\
  (fst (list_on w) = Returned 0 \/ exists e, fst (list_on w) = Raised e) /\
  (fst (sweep_on w) = Returned 1 \/ exists e, fst (sweep_on w) = Raised e).
Proof.
  repeat split.
  - unfold on. rewrite run_bind.
    destruct (send_cases "_usb_connection" "E1r1" w)
      as [(v & _ & H)|[e H]]; rewrite H; [left|right; exists e]; reflexivity.
  - unfold off. rewrite run_bind.
    destruct (send_cases "_usb_connection" "E0r0" w)
      as [(v & _ & H)|[e H]]; rewrite H; [left|right; exists e]; reflexivity.
  - unfold reset_listpos. rewrite run_bind.
    destruct (send_cases "_usb_connection" "g0" w)
      as [(v & _ & H)|[e H]]; rewrite H; [left|right; exists e]; reflexivity.
  - unfold reset_sweeppos. rewrite run_bind. cbn [setattr]. rewrite run_bind.
    destruct (send_cases "_usb_connection" "g1"
                (with_attrs (insert "internal_mode" (VStr "sweep")) w))
      as [(v & _ & H)|[e H]]; rewrite H; [left|right; exists e]; reflexivity.
  - unfold reset_sweep. rewrite run_bind.
    destruct (send_cases "_usb_connection" "g1" w)
      as [(v & _ & H)|[e H]]; rewrite H; [|right; exists e; reflexivity].
    rewrite run_bind.
    destruct (send_cases "_usb_connection" "g0" (record (Wrote "g1") w))
      as [(v' & _ & H')|[e H']]; rewrite H';
      [left|right; exists e]; reflexivity.
  - unfold list_on. rewrite run_bind. cbn [setattr]. rewrite run_bind.
    destruct (send_cases "_usb_connection" "e1r1"
                (with_attrs (insert "internal_mode" (VStr "list")) w))
      as [(v & _ & H)|[e H]]; rewrite H; [|right; exists e; reflexivity].
    rewrite run_bind.
    destruct (send_cases "_usb_connection" "g1"
                (record (Wrote "e1r1")
                   (with_attrs (insert "internal_mode" (VStr "list")) w)))
      as [(v' & _ & H')|[e H']]; rewrite H';
      [left|right; exists e]; reflexivity.
  - unfold sweep_on. rewrite run_bind.
    destruct (send_cases "_usb_connection" "E1r1" w)
      as [(v & _ & H)|[e H]]; rewrite H; [|right; exists e; reflexivity].
    rewrite run_bind.
    destruct (send_cases "_usb_connection" "g1" (record (Wrote "E1r1") w))
      as [(v' & _ & H')|[e H']]; rewrite H';
      [left|right; exists e]; reflexivity.
Qed.

(** For the two edges the method comes down to one write of "w1". *)
Lemma set_ext_trigger_sends pol w :
  pol <> OTHER_EDGE ->
  set_ext_trigger pol w =
    match send "_usb_connection" (mret "w1") w with
    | (Returned _, w') => (Returned 0, w')
    | (Raised _, w') => (Returned (-1), w')
    | (Unfinished, w') => (Unfinished, w')
    end.
Proof.
  intros Hpol. unfold set_ext_trigger.
  destruct pol; [| |congruence].
  - rewrite decide_True by reflexivity.
    rewrite run_bind. unfold try_except. rewrite run_bind.
    destruct (send _ _ w) as [[v|e|] w']; reflexivity.
  - rewrite decide_False by discriminate. rewrite decide_True by reflexivity.
    rewrite run_bind. unfold try_except. rewrite run_bind.
    destruct (send _ _ w) as [[v|e|] w']; reflexivity.
Qed.



Lemma send_returns_some s w :
  activated w ->
  is_Some (write_result (instrument w) (trace w) s) ->
  exists v, send "_usb_connection" (mret s) w = (Returned v, record (Wrote s) w).
Proof.
  intros Hw [v Hv]. exists v. apply send_returns; [exact Hw|reflexivity|exact Hv].
Qed.

(** When the transport refuses a write, the methods let the exception of
    the library through, leaving the world as it was at that write; no
    error code is made of it, except by [set_ext_trigger], which answers -1.
    A refused first write leaves nothing on the wire.  When the second
    write of [reset_sweep] or [sweep_on] is the refused one, the first
    command is on the wire already, and [sweep_on] has not set the mode. *)
Theorem refused_write_propagates x w :
  activated w ->
  let refused cmd := write_result (instrument w) (trace w) cmd = None in
  (refused "E1r1" ->
   on w = (Raised VisaIOError, w) /\ sweep_on w = (Raised VisaIOError, w)) /\
  (refused "E0r0" -> off w = (Raised VisaIOError, w)) /\
  (refused ("W" +:+ format_f x) ->
   set_power (Some x) w = (Raised VisaIOError, w)) /\
  (refused ("f" +:+ format_e x +:+ " MHz") ->
   set_frequency (Some x) w = (Raised VisaIOError, w)) /\
  (refused "g0" -> reset_listpos w = (Raised VisaIOError, w)) /\
  (refused "g1" -> reset_sweep w = (Raised VisaIOError, w)) /\
  (refused "w1" ->
   set_ext_trigger RISING w = (Returned (-1), w) /\
   set_ext_trigger FALLING w = (Returned (-1), w)) /\
  (is_Some (write_result (instrument w) (trace w) "g1") ->
   write_result (instrument w) (trace w ++ [Wrote "g1"]) "g0" = None ->
   reset_sweep w = (Raised VisaIOError, record (Wrote "g1") w)) /\
  (is_Some (write_result (instrument w) (trace w) "E1r1") ->
   write_result (instrument w) (trace w ++ [Wrote "E1r1"]) "g1" = None ->
   sweep_on w = (Raised VisaIOError, record (Wrote "E1r1") w)).
Proof.
  intros Hw refused.
  assert (Hsend : forall s, refused s ->
    send "_usb_connection" (mret s) w = (Raised VisaIOError, w)).
  { intros s Hs. apply send_refused; [exact Hw | exact Hs]. }
  repeat split.
  - unfold on. apply bind_raised, Hsend. assumption.
  - unfold sweep_on. apply bind_raised, Hsend. assumption.
  - intros H. unfold off. apply bind_raised, Hsend, H.
  - intros H. unfold set_power. apply bind_raised.
    exact (Hsend ("W" +:+ format_f x) H).
  - intros H. unfold set_frequency. apply bind_raised.
    exact (Hsend ("f" +:+ format_e x +:+ " MHz") H).
  - intros H. unfold reset_listpos. apply bind_raised, Hsend, H.
  - intros H. unfold reset_sweep. apply bind_raised, Hsend, H.
  - rewrite set_ext_trigger_sends by discriminate.
    rewrite Hsend by assumption. reflexivity.
  - rewrite set_ext_trigger_sends by discriminate.
    rewrite Hsend by assumption. reflexivity.
  - intros Hfirst Hsecond. unfold reset_sweep.
    destruct (send_returns_some "g1" w Hw Hfirst) as [v Hv].
    rewrite (bind_returned _ _ _ _ _ Hv). apply bind_raised.
    apply send_refused; [exact Hw | exact Hsecond].
  - intros Hfirst Hsecond. unfold sweep_on.
    destruct (send_returns_some "E1r1" w Hw Hfirst) as [v Hv].
    rewrite (bind_returned _ _ _ _ _ Hv). apply bind_raised.
    apply send_refused; [exact Hw | exact Hsecond].
Qed.

Lemma refused_write_propagates_witness :
  set_frequency (Some (GHz 10)) (lab_of deaf) =
    (Raised VisaIOError, lab_of deaf) /\
  set_ext_trigger RISING (lab_of deaf) = (Returned (-1), lab_of deaf) /\
  reset_sweep (lab_of (picky "g0")) =
    (Raised VisaIOError, record (Wrote "g1") (lab_of (picky "g0"))) /\
  sweep_on (lab_of (picky "g1")) =
    (Raised VisaIOError, record (Wrote "E1r1") (lab_of (picky "g1"))).
Proof.
  destruct (refused_write_propagates (GHz 10) (lab_of deaf))
    as (_ & _ & _ & Hfreq & _ & _ & Htrig & _); [reflexivity|].
  destruct (refused_write_propagates (GHz 10) (lab_of (picky "g0")))
    as (_ & _ & _ & _ & _ & _ & _ & Hreset & _); [reflexivity|].
  destruct (refused_write_propagates (GHz 10) (lab_of (picky "g1")))
    as (_ & _ & _ & _ & _ & _ & _ & _ & Hsweep); [reflexivity|].
  split; [apply Hfreq; reflexivity|].
  split; [apply Htrig; reflexivity|].
  split; [apply Hreset; [eexists; reflexivity | reflexivity]|].
  apply Hsweep; [eexists; reflexivity | reflexivity].
Defined.

(** [set_ext_trigger] never raises.  It answers 0 exactly when "w1" went
    out, and -1 with nothing sent otherwise; an edge that is neither rising
    nor falling is answered with -1 in every state. *)
Theorem set_ext_trigger_never_raises pol w :
  (set_ext_trigger pol w = (Returned 0, record (Wrote "w1") w) \/
   set_ext_trigger pol w = (Returned (-1), w)) /\
  set_ext_trigger OTHER_EDGE w = (Returned (-1), w).
Proof.
  split; [|reflexivity].
  destruct pol; [| |right; reflexivity].
  all: rewrite set_ext_trigger_sends by discriminate;
    destruct (send_cases "_usb_connection" "w1" w) as [(v & _ & H)|[e H]];
    rewrite H; [left|right]; reflexivity.
Qed.

(** ** The getters *)

Lemma inert_float_of_int z : inert (float_of_int z).
Proof. intros w. unfold float_of_int. destruct (of_Z z); reflexivity. Qed.

Lemma inert_py_float conv v : inert (py_float conv v).
Proof.
  intros w. destruct v; cbn [py_float]; try reflexivity;
    try apply inert_float_of_int.
  destruct (conv s); reflexivity.
Qed.

(** Reading the status on an activated adapter: an unanswered query is the
    library's exception with nothing recorded; a reply that is not an
    integer is a [ValueError] after the query went out; an integer reply
    gives the flag, true for every number but zero. *)
Theorem get_status_by_reply w :
  activated w ->
  get_status w =
    match query_reply (instrument w) (trace w) "r?" with
    | None => (Raised VisaIOError, w)
    | Some reply =>
        match int_of_string (strip reply) with
        | None => (Raised ValueError, record (Queried "r?") w)
        | Some z =>
            (Returned (VTuple [VStr "sweep"; VBool (negb (z =? 0))]),
             record (Queried "r?") w)
        end
    end.
Proof.
  intros Hw.
  destruct (query_reply (instrument w) (trace w) "r?") as [reply|] eqn:Hreply.
  - unfold get_status.
    rewrite (bind_returned _ _ _ _ _ (ask_returns _ _ _ Hw Hreply)).
    unfold py_int. destruct (int_of_string (strip reply)); reflexivity.
  - unfold get_status. apply bind_raised. unfold ask.
    rewrite (bind_returned _ _ _ _ _ (getattr_instance _ _ _ Hw)).
    cbn [query_method]. rewrite run_bind. cbn [mret M_ret].
    unfold exchange. rewrite Hreply. reflexivity.
Qed.

Lemma get_status_by_reply_witness :
  get_status (lab "on") = (Raised ValueError, record (Queried "r?") (lab "on")) /\
  get_status (lab "-2") =
    (Returned (VTuple [VStr "sweep"; VBool true]),
     record (Queried "r?") (lab "-2")).
Proof.
  split.
  - rewrite (get_status_by_reply (lab "on")); reflexivity.
  - rewrite (get_status_by_reply (lab "-2")); reflexivity.
Defined.

(** The getters leave the instance alone and put at most one message on the
    wire: a query for the status and the frequency, but a write, "W?", for
    the power. *)
Theorem getters_send_one_message conv w :
  (snd (get_status w) = w \/
   snd (get_status w) = record (Queried "r?") w) /\
  (snd (get_frequency conv w) = w \/
   snd (get_frequency conv w) = record (Queried "f?") w) /\
  (snd (get_power conv w) = w \/
   snd (get_power conv w) = record (Wrote "W?") w).
Proof.
  split; [|split].
  - destruct (get_status_cases w) as [(reply & z & _ & _ & H) | [[e H] | [e H]]];
      rewrite H; [right|left|right]; reflexivity.
  - unfold get_frequency. rewrite run_bind.
    destruct (ask_cases "_usb_connection" "f?" w) as [[reply H]|[e H]];
      rewrite H; [right; apply inert_py_float | left; reflexivity].
  - unfold get_power. rewrite run_bind.
    destruct (send_cases "_usb_connection" "W?" w) as [(v & _ & H)|[e H]];
      rewrite H; [right; apply inert_py_float | left; reflexivity].
Qed.

(** What [get_power] returns is [float] of what the library's [write] handed
    back for "W?"; no reply of the instrument enters into it. *)
Theorem get_power_converts_write_result conv v w :
  activated w ->
  write_result (instrument w) (trace w) "W?" = Some v ->
  get_power conv w = py_float conv v (record (Wrote "W?") w).
Proof.
  intros Hw Hv. unfold get_power.
  apply bind_returned. apply send_returns; [exact Hw | reflexivity | exact Hv].
Qed.

Lemma get_power_converts_write_result_witness :
  get_power (fun _ => None) (lab "0") =
    py_float (fun _ => None) (VInt 2) (record (Wrote "W?") (lab "0")).
Proof.
  apply (get_power_converts_write_result (fun _ => None) (VInt 2) (lab "0")).
  - reflexivity.
  - reflexivity.
Defined.

Example get_power_on_the_bench :
  get_power (fun _ => None) (lab "0") =
    (Returned (of_Z 2), record (Wrote "W?") (lab "0")).
Proof. reflexivity. Qed.

Example get_power_on_a_paired_write :
  fst (get_power (fun _ => None) (lab_of paired)) = Raised TypeError.
Proof. reflexivity. Qed.

(** ** List mode, further *)

(** For every non-empty frequency list, of any length and with any entries,
    and every power, [set_list] on a working connection sends the first
    entry as lower bound, the last as upper bound, the number of entries and
    the power twice, sets the mode attribute to 'list' and returns 0; no
    bound of [get_limits] is consulted. *)
Theorem set_list_sends_ends_and_count x l p w :
  activated w -> accepts_writes (instrument w) ->
  exists w',
    set_list (Some (x :: l)) (Some p) w = (Returned 0, w') /\
    trace w' = trace w ++
      [Wrote "X0";
       Wrote ("l" +:+ format_e x);
       Wrote ("u" +:+ format_e (default x (last l)));
       Wrote ("s" +:+ pretty (Z.of_nat (length (x :: l))));
       Wrote "t10.00";
       Wrote ("[" +:+ format_f p);
       Wrote ("]" +:+ format_f p);
       Wrote "^1";
       Wrote "g1"] /\
    attrs w' = <["internal_mode" := VStr "list"]> (attrs w) /\
    instrument w' = instrument w.
Proof. apply set_list_writes. Qed.

Lemma set_list_sends_ends_and_count_witness :
  exists w',
    set_list (Some [GHz 1]) (Some (of_Z 50)) (lab "0") = (Returned 0, w') /\
    trace w' = trace (lab "0") ++
      [Wrote "X0";
       Wrote ("l" +:+ format_e (GHz 1));
       Wrote ("u" +:+ format_e (default (GHz 1) (last [])));
       Wrote ("s" +:+ pretty (Z.of_nat (length [GHz 1])));
       Wrote "t10.00";
       Wrote ("[" +:+ format_f (of_Z 50));
       Wrote ("]" +:+ format_f (of_Z 50));
       Wrote "^1";
       Wrote "g1"] /\
    attrs w' = <["internal_mode" := VStr "list"]> (attrs (lab "0")) /\
    instrument w' = instrument (lab "0").
Proof.
  apply (set_list_sends_ends_and_count (GHz 1) [] (of_Z 50) (lab "0")).
  - reflexivity.
  - exact (bench_accepts "0").
Defined.

(** The entries between the first and the last never reach the
    instrument: two lists with the same first entry, last entry and length
    make [set_list] behave alike, in every state. *)
Theorem set_list_ignores_interior l1 l2 p w :
  head l1 = head l2 -> last l1 = last l2 -> length l1 = length l2 ->
  set_list (Some l1) p w = set_list (Some l2) p w.
Proof.
  intros Hhead Hlast Hlen.
  assert (Hfirst : first_item (Some l1) = first_item (Some l2)).
  { destruct l1 as [|x1 l1], l2 as [|x2 l2]; try discriminate; [reflexivity|].
    cbn in Hhead. injection Hhead as ->. reflexivity. }
  unfold set_list. rewrite Hfirst. unfold py_len, last_item.
  rewrite Hlast, Hlen. reflexivity.
Qed.

Lemma set_list_ignores_interior_witness :
  set_list (Some [GHz 10; GHz 15; GHz 20]) (Some (of_Z (-10))) (lab "0") =
  set_list (Some [GHz 10; GHz 11; GHz 20]) (Some (of_Z (-10))) (lab "0").
Proof.
  apply (set_list_ignores_interior [GHz 10; GHz 15; GHz 20]
           [GHz 10; GHz 11; GHz 20] (Some (of_Z (-10))) (lab "0")).
  - reflexivity.
  - reflexivity.
  - reflexivity.
Defined.

(** Without a frequency list [set_list] raises a [TypeError] before anything
    is sent; with an empty one it raises an [IndexError] after "X0" has
    already gone out. *)
Theorem set_list_without_frequencies p w :
  set_list None p w = (Raised TypeError, w) /\
  (activated w -> accepts_writes (instrument w) ->
   set_list (Some []) p w = (Raised IndexError, record (Wrote "X0") w)).
Proof.
  split; [reflexivity|]. intros Hw Hacc.
  unfold set_list. rewrite run_bind. cbn [py_len mret M_ret].
  rewrite send_then with (s := "X0"); [|assumption|assumption|reflexivity].
  apply bind_raised. unfold send.
  rewrite (bind_returned _ _ _ _ _
             (getattr_instance _ _ _ (activated_record (Wrote "X0") w Hw))).
  cbn [write_method]. rewrite run_bind. cbn [mret M_ret]. reflexivity.
Qed.

Lemma set_list_without_frequencies_witness :
  set_list (Some []) (Some (of_Z 0)) (lab "0") =
    (Raised IndexError, record (Wrote "X0") (lab "0")).
Proof.
  apply (proj2 (set_list_without_frequencies (Some (of_Z 0)) (lab "0"))).
  - reflexivity.
  - exact (bench_accepts "0").
Defined.

(** Without a power [set_list] raises a [TypeError] only after the bounds,
    the count and the dwell command have gone out; the mode attribute is
    left as it was. *)
Theorem set_list_without_power x l w :
  activated w -> accepts_writes (instrument w) ->
  exists w',
    set_list (Some (x :: l)) None w = (Raised TypeError, w') /\
    trace w' = trace w ++
      [Wrote "X0";
       Wrote ("l" +:+ format_e x);
       Wrote ("u" +:+ format_e (default x (last l)));
       Wrote ("s" +:+ pretty (Z.of_nat (length (x :: l))));
       Wrote "t10.00"] /\
    attrs w' = attrs w.
Proof.
  intros Hw Hacc. eexists. split.
  - unfold set_list. rewrite run_bind. cbn [py_len mret M_ret].
    rewrite send_then with (s := "X0"); [|assumption|assumption|reflexivity].
    rewrite send_then with (s := "l" +:+ format_e x);
      [|assumption|assumption|reflexivity].
    rewrite send_then with (s := "u" +:+ format_e (default x (last l)));
      [|assumption|assumption|].
    2: { rewrite run_bind. unfold last_item.
         rewrite (last_of_cons x l). reflexivity. }
    rewrite send_then with (s := "s" +:+ pretty (Z.of_nat (length (x :: l))));
      [|assumption|assumption|reflexivity].
    rewrite send_then with (s := "t10.00"); [|assumption|assumption|reflexivity].
    apply bind_raised. unfold send.
    match goal with
    | |- (getattr _ ≫= _) ?w0 = _ =>
        assert (Hw0 : activated w0) by exact Hw;
        rewrite (bind_returned _ _ _ _ _ (getattr_instance _ _ _ Hw0))
    end.
    cbn [write_method]. rewrite run_bind. cbn [mret M_ret]. reflexivity.
  - cbn [trace attrs record]. repeat rewrite <- app_assoc.
    split; reflexivity.
Qed.

Lemma set_list_without_power_witness :
  exists w',
    set_list (Some [GHz 10; GHz 20]) None (lab "0") = (Raised TypeError, w') /\
    trace w' = trace (lab "0") ++
      [Wrote "X0";
       Wrote ("l" +:+ format_e (GHz 10));
       Wrote ("u" +:+ format_e (default (GHz 10) (last [GHz 20])));
       Wrote ("s" +:+ pretty (Z.of_nat (length [GHz 10; GHz 20])));
       Wrote "t10.00"] /\
    attrs w' = attrs (lab "0").
Proof.
  apply (set_list_without_power (GHz 10) [GHz 20] (lab "0")).
  - reflexivity.
  - exact (bench_accepts "0").
Defined.

(** ** The mode attribute and the wire *)

(** [list_on] and [reset_sweeppos] set the mode attribute before they write,
    so it is changed even when the command never goes out; [sweep_on] sets
    it last, so a failed [sweep_on] leaves the attributes as they were. *)
Theorem mode_attribute_when_writes_fail w :
  attrs (snd (list_on w)) !! "internal_mode" = Some (VStr "list") /\
  attrs (snd (reset_sweeppos w)) !! "internal_mode" = Some (VStr "sweep") /\
  (forall e w', sweep_on w = (Raised e, w') -> attrs w' = attrs w).
Proof.
  split; [|split].
  - unfold list_on. rewrite run_bind. cbn [setattr].
    match goal with
    | |- attrs (snd (?c ?w1)) !! _ = _ =>
        assert (Hc : untouched "internal_mode" c)
    end.
    { apply untouched_bind; [apply untouched_send, untouched_mret|]. intros _.
      apply untouched_bind; [apply untouched_send, untouched_mret|]. intros _.
      apply untouched_mret. }
    rewrite Hc. cbn [attrs with_attrs]. apply lookup_insert_eq.
  - unfold reset_sweeppos. rewrite run_bind. cbn [setattr].
    match goal with
    | |- attrs (snd (?c ?w1)) !! _ = _ =>
        assert (Hc : untouched "internal_mode" c)
    end.
    { apply untouched_bind; [apply untouched_send, untouched_mret|]. intros _.
      apply untouched_mret. }
    rewrite Hc. cbn [attrs with_attrs]. apply lookup_insert_eq.
  - intros e w'. unfold sweep_on. rewrite run_bind.
    destruct (send_cases "_usb_connection" "E1r1" w) as [(v & _ & H)|[e1 H]];
      rewrite H; [|intros [= _ <-]; reflexivity].
    rewrite run_bind.
    destruct (send_cases "_usb_connection" "g1" (record (Wrote "E1r1") w))
      as [(v' & _ & H')|[e2 H']]; rewrite H';
      [discriminate | intros [= _ <-]; reflexivity].
Qed.

Lemma mode_attribute_when_writes_fail_witness :
  fst (list_on (lab_of deaf)) = Raised VisaIOError /\
  attrs (snd (list_on (lab_of deaf))) !! "internal_mode" = Some (VStr "list") /\
  attrs (snd (sweep_on (lab_of deaf))) = attrs (lab_of deaf).
Proof.
  split; [reflexivity|]. split.
  - exact (proj1 (mode_attribute_when_writes_fail (lab_of deaf))).
  - apply (proj2 (proj2 (mode_attribute_when_writes_fail (lab_of deaf)))
             VisaIOError).
    reflexivity.
Defined.

Lemma activated_with_mode m w :
  activated w -> activated (with_attrs (insert "internal_mode" (VStr m)) w).
Proof.
  intros Hw. unfold activated. cbn [attrs with_attrs].
  rewrite lookup_insert_ne by discriminate. exact Hw.
Qed.

Lemma on_runs w :
  activated w -> accepts_writes (instrument w) ->
  on w = (Returned 0, record (Wrote "E1r1") w).
Proof.
  intros Hw Hacc. unfold on.
  rewrite send_then with (s := "E1r1"); [|assumption|assumption|reflexivity].
  reflexivity.
Qed.

Lemma sweep_on_runs w :
  activated w -> accepts_writes (instrument w) ->
  sweep_on w =
    (Returned 1,
     with_attrs (insert "internal_mode" (VStr "sweep"))
       (record (Wrote "g1") (record (Wrote "E1r1") w))).
Proof.
  intros Hw Hacc. unfold sweep_on.
  rewrite send_then with (s := "E1r1"); [|assumption|assumption|reflexivity].
  rewrite send_then with (s := "g1"); [|assumption|assumption|reflexivity].
  reflexivity.
Qed.

Lemma reset_sweeppos_runs w :
  activated w -> accepts_writes (instrument w) ->
  reset_sweeppos w =
    (Returned 0,
     record (Wrote "g1") (with_attrs (insert "internal_mode" (VStr "sweep")) w)).
Proof.
  intros Hw Hacc. unfold reset_sweeppos. rewrite run_bind. cbn [setattr].
  rewrite send_then with (s := "g1");
    [reflexivity | apply activated_with_mode | |reflexivity]; assumption.
Qed.

Lemma reset_listpos_runs w :
  activated w -> accepts_writes (instrument w) ->
  reset_listpos w = (Returned 0, record (Wrote "g0") w).
Proof.
  intros Hw Hacc. unfold reset_listpos.
  rewrite send_then with (s := "g0"); [|assumption|assumption|reflexivity].
  reflexivity.
Qed.

Lemma reset_sweep_runs w :
  activated w -> accepts_writes (instrument w) ->
  reset_sweep w = (Returned 0, record (Wrote "g0") (record (Wrote "g1") w)).
Proof.
  intros Hw Hacc. unfold reset_sweep.
  rewrite send_then with (s := "g1"); [|assumption|assumption|reflexivity].
  rewrite send_then with (s := "g0"); [|assumption|assumption|reflexivity].
  reflexivity.
Qed.

(** On a working connection [sweep_on] leaves the wire and the instance as
    [on] followed by [reset_sweeppos] does, but answers 1 where those answer
    0; [reset_sweep] puts on the wire what [reset_sweeppos] followed by
    [reset_listpos] puts there, without touching the mode attribute. *)
Theorem sweep_methods_compose w :
  activated w -> accepts_writes (instrument w) ->
  snd (sweep_on w) = snd (reset_sweeppos (snd (on w))) /\
  fst (sweep_on w) = Returned 1 /\
  fst (on w) = Returned 0 /\
  fst (reset_sweeppos (snd (on w))) = Returned 0 /\
  trace (snd (reset_sweep w)) =
    trace (snd (reset_listpos (snd (reset_sweeppos w)))) /\
  attrs (snd (reset_sweep w)) = attrs w.
Proof.
  intros Hw Hacc.
  rewrite sweep_on_runs, on_runs, reset_sweep_runs by assumption.
  cbn [fst snd].
  rewrite !reset_sweeppos_runs by assumption.
  cbn [fst snd].
  rewrite reset_listpos_runs;
    [|apply (activated_with_mode "sweep" w Hw) | exact Hacc].
  repeat split; reflexivity.
Qed.

Lemma sweep_methods_compose_witness :
  snd (sweep_on (lab "0")) = snd (reset_sweeppos (snd (on (lab "0")))) /\
  fst (sweep_on (lab "0")) = Returned 1.
Proof.
  destruct (sweep_methods_compose (lab "0")) as (H1 & H2 & _).
  - reflexivity.
  - exact (bench_accepts "0").
  - split; [exact H1 | exact H2].
Defined.

(** ** The sweep setup, were its connection there *)

(** [set_sweep] never looks at its power argument.  On an instance that did
    carry an open session under [_gpib_connection], it would send the lower
    bound one step below [start], the upper bound [stop], the step, "x2" and
    "w1", set the mode attribute and return the mode name 'sweep' rather
    than a status code. *)
Theorem set_sweep_through_gpib repr start stop step power w :
  (forall power', set_sweep repr start stop step power w =
                  set_sweep repr start stop step power' w) /\
  (attrs w !! "_gpib_connection" = Some VConnection ->
   accepts_writes (instrument w) ->
   exists w',
     set_sweep repr start stop step power w = (Returned (VStr "sweep"), w') /\
     trace w' = trace w ++
       [Wrote "X0";
        Wrote ("l" +:+ repr (sub start step));
        Wrote ("u" +:+ repr stop);
        Wrote ("s" +:+ repr step);
        Wrote "x2";
        Wrote "w1"] /\
     attrs w' = <["internal_mode" := VStr "sweep"]> (attrs w)).
Proof.
  split; [reflexivity|]. intros Hconn Hacc. eexists. split.
  - unfold set_sweep.
    rewrite send_then_via with (s := "X0");
      [|assumption|assumption|reflexivity].
    rewrite send_then_via with (s := "l" +:+ repr (sub start step));
      [|assumption|assumption|reflexivity].
    rewrite send_then_via with (s := "u" +:+ repr stop);
      [|assumption|assumption|reflexivity].
    rewrite send_then_via with (s := "s" +:+ repr step);
      [|assumption|assumption|reflexivity].
    rewrite send_then_via with (s := "x2");
      [|assumption|assumption|reflexivity].
    rewrite send_then_via with (s := "w1");
      [|assumption|assumption|reflexivity].
    rewrite run_bind. cbn [setattr]. unfold getattr.
    cbn [attrs with_attrs]. rewrite lookup_insert_eq. reflexivity.
  - cbn [trace attrs with_attrs record]. repeat rewrite <- app_assoc.
    split; reflexivity.
Qed.

Lemma set_sweep_through_gpib_witness :
  let w := with_attrs (insert "_gpib_connection" VConnection) (lab "0") in
  exists w',
    set_sweep (fun _ => "?") (GHz 10) (GHz 20) (of_Z 1000000) (of_Z 0) w =
      (Returned (VStr "sweep"), w') /\
    trace w' = trace w ++
      [Wrote "X0";
       Wrote ("l" +:+ "?");
       Wrote ("u" +:+ "?");
       Wrote ("s" +:+ "?");
       Wrote "x2";
       Wrote "w1"] /\
    attrs w' = <["internal_mode" := VStr "sweep"]> (attrs w).
Proof.
  apply (proj2 (set_sweep_through_gpib (fun _ => "?") (GHz 10) (GHz 20)
                  (of_Z 1000000) (of_Z 0)
                  (with_attrs (insert "_gpib_connection" VConnection) (lab "0")))).
  - reflexivity.
  - exact (bench_accepts "0").
Defined.


(** ** What every request keeps *)

Lemma getattr_then {B : Type} name v (f : pyval -> M B) w :
  attrs w !! name = Some v -> (getattr name ≫= f) w = f v w.
Proof. intros Hv. apply bind_returned, getattr_instance, Hv. Qed.

Lemma get_status_called_never_returns w v w' :
  get_status_called w <> (Returned v, w').
Proof.
  destruct (get_status_called_raises w) as [e [H|H]]; rewrite H; discriminate.
Qed.

Lemma open_resource_returns rm a t w conn w' :
  open_resource rm a t w = (Returned conn, w') -> conn = VConnection.
Proof.
  unfold open_resource. destruct rm; try discriminate.
  destruct (opens _ _ _); [|discriminate]. intros [= <- _]. reflexivity.
Qed.

Section Keeps.

Variable P : world -> Prop.
Hypothesis P_record : forall e w, P w -> P (record e w).
Hypothesis P_setattr :
  forall name v, assignable name v = true -> keeps P (setattr name v).

Lemma keeps_inert {A : Type} (c : M A) : inert c -> keeps P c.
Proof. intros Hc w Hw. rewrite Hc. exact Hw. Qed.

Lemma keeps_mret {A : Type} (a : A) : keeps P (mret a).
Proof. intros w Hw. exact Hw. Qed.

Lemma keeps_raise {A : Type} (e : exn) : keeps P (@raise A e).
Proof. intros w Hw. exact Hw. Qed.

Lemma keeps_bind_on {A B : Type} (c : M A) (f : A -> M B) :
  keeps P c ->
  (forall a w w', c w = (Returned a, w') -> keeps P (f a)) ->
  keeps P (c ≫= f).
Proof.
  intros Hc Hf w Hw. rewrite run_bind. specialize (Hc w Hw).
  destruct (c w) as [[a| |] w'] eqn:Hcw; cbn [snd] in *; try exact Hc.
  apply (Hf a w w' Hcw). exact Hc.
Qed.

Lemma keeps_bind {A B : Type} (c : M A) (f : A -> M B) :
  keeps P c -> (forall a, keeps P (f a)) -> keeps P (c ≫= f).
Proof. intros Hc Hf. apply keeps_bind_on; [exact Hc | intros; apply Hf]. Qed.

Lemma keeps_try_except {A : Type} (body handler : M A) :
  keeps P body -> keeps P handler -> keeps P (try_except body handler).
Proof.
  intros Hb Hh w Hw. unfold try_except. specialize (Hb w Hw).
  destruct (body w) as [[a| |] w']; cbn [snd] in *; try exact Hb.
  apply Hh. exact Hb.
Qed.

Lemma keeps_getattr name : keeps P (getattr name).
Proof.
  apply keeps_inert. intros w. unfold getattr.
  destruct (attrs w !! name); [reflexivity|].
  destruct (class_attrs !! name); reflexivity.
Qed.

Lemma keeps_transmit cmd : keeps P (transmit cmd).
Proof.
  intros w Hw. unfold transmit.
  destruct (write_result _ _ _); [apply P_record|]; exact Hw.
Qed.

Lemma keeps_exchange cmd : keeps P (exchange cmd).
Proof.
  intros w Hw. unfold exchange.
  destruct (query_reply _ _ _); [apply P_record|]; exact Hw.
Qed.

Lemma keeps_send attr (cmd : M string) :
  keeps P cmd -> keeps P (send attr cmd).
Proof.
  intros Hcmd. unfold send.
  apply keeps_bind; [apply keeps_getattr|]. intros conn.
  apply keeps_bind_on.
  { destruct conn; apply keeps_raise || apply keeps_mret. }
  intros wr w w' Hwr. rewrite (write_method_returns _ _ _ _ Hwr).
  apply keeps_bind; [exact Hcmd|]. intros s. apply keeps_transmit.
Qed.

Lemma keeps_ask attr cmd : keeps P (ask attr cmd).
Proof.
  unfold ask.
  apply keeps_bind; [apply keeps_getattr|]. intros conn.
  apply keeps_bind_on.
  { destruct conn; apply keeps_raise || apply keeps_mret. }
  intros q w w' Hq. rewrite (query_method_returns _ _ _ _ Hq).
  apply keeps_exchange.
Qed.

Lemma keeps_fmt_f x : keeps P (fmt_f x).
Proof. destruct x; [apply keeps_mret | apply keeps_raise]. Qed.

Lemma keeps_fmt_e x : keeps P (fmt_e x).
Proof. destruct x; [apply keeps_mret | apply keeps_raise]. Qed.

Lemma keeps_py_int s : keeps P (py_int s).
Proof.
  unfold py_int. destruct (int_of_string s);
    [apply keeps_mret | apply keeps_raise].
Qed.

Lemma keeps_mul_int v k : keeps P (mul_int v k).
Proof.
  destruct v; cbn [mul_int]; try apply keeps_mret; try apply keeps_raise.
  apply keeps_bind; [apply keeps_inert, inert_float_of_int|].
  intros y. apply keeps_mret.
Qed.

Lemma keeps_open_resource rm a t : keeps P (open_resource rm a t).
Proof.
  apply keeps_inert. intros w. unfold open_resource.
  destruct rm; try reflexivity. destruct (opens _ _ _); reflexivity.
Qed.

Lemma keeps_get_status_called : keeps P get_status_called.
Proof.
  unfold get_status_called, get_status.
  apply keeps_bind.
  - apply keeps_bind; [apply keeps_ask|]. intros reply.
    apply keeps_bind; [apply keeps_py_int|]. intros z. apply keeps_mret.
  - intros status. destruct status; apply keeps_raise.
Qed.

(** What follows [self.get_status()] never runs. *)
Lemma keeps_after_status {B : Type} (f : pyval -> M B) :
  keeps P (get_status_called ≫= f).
Proof.
  apply keeps_bind_on; [apply keeps_get_status_called|].
  intros v w w' H. destruct (get_status_called_never_returns _ _ _ H).
Qed.

End Keeps.

Ltac keep_step :=
  match goal with
  | |- keeps _ (mret _) => apply keeps_mret
  | |- keeps _ (raise _) => apply keeps_raise
  | |- keeps _ (get_status_called ≫= _) => apply keeps_after_status; assumption
  | |- keeps _ (open_resource _ _ _ ≫= _) =>
      let H := fresh "Hopen" in
      apply keeps_bind_on;
      [apply keeps_open_resource
      |intros ? ? ? H; rewrite (open_resource_returns _ _ _ _ _ _ H)]
  | |- keeps _ (_ ≫= _) => apply keeps_bind; [|intros]
  | |- keeps _ (try_except _ _) => apply keeps_try_except
  | |- keeps _ (getattr _) => apply keeps_getattr
  | |- keeps _ (send _ _) => apply keeps_send; [assumption|]
  | |- keeps _ (ask _ _) => apply keeps_ask; assumption
  | |- keeps _ (py_int _) => apply keeps_py_int
  | |- keeps _ (mul_int _ _) => apply keeps_mul_int
  | |- keeps _ (fmt_f _) => apply keeps_fmt_f
  | |- keeps _ (fmt_e _) => apply keeps_fmt_e
  | |- keeps _ (py_float _ _) => apply keeps_inert, inert_py_float
  | H : forall name v, assignable name v = true -> keeps _ (setattr name v)
    |- keeps _ (setattr _ _) => apply H; reflexivity
  | |- keeps _ (match ?x with _ => _ end) => destruct x
  end.

Section Stable.

Variable P : world -> Prop.
Hypothesis P_record : forall e w, P w -> P (record e w).
Hypothesis P_setattr :
  forall name v, assignable name v = true -> keeps P (setattr name v).

(** A property of the world that survives traffic on the wire and every
    assignment the class makes survives every request. *)
Lemma keeps_serve conv repr fuel r : keeps P (serve conv repr fuel r).
Proof.
  destruct r; cbn [serve];
    unfold void, on_activate, on, off, get_status, get_power, get_frequency,
      set_power_call, set_frequency_call, set_power, set_frequency, cw_on,
      set_cw, set_list, py_len, first_item, last_item, reset_listpos,
      reset_sweeppos, set_sweep, reset_sweep, sweep_on, list_on.
  all: try (unfold set_ext_trigger; cbv zeta).
  all: repeat keep_step.
Qed.

Lemma keeps_after conv repr fuel rs w :
  P w -> P (after conv repr fuel rs w).
Proof.
  revert w. induction rs as [|r rs IH]; intros w Hw; [exact Hw|].
  cbn [after fold_left]. apply IH. apply keeps_serve. exact Hw.
Qed.

End Stable.

Lemma keeps_connection_setattr o name v :
  name <> "_usb_connection" -> keeps (connection_is o) (setattr name v).
Proof.
  intros Hne w Hw. unfold connection_is. cbn [setattr snd attrs with_attrs].
  rewrite lookup_insert_ne by exact Hne. exact Hw.
Qed.

(** Every request but activation leaves the connection attribute as it
    is. *)
Lemma keeps_connection_serve o conv repr fuel r :
  r <> OnActivate -> keeps (connection_is o) (serve conv repr fuel r).
Proof.
  intros Hr.
  assert (Hrec : forall e w, connection_is o w -> connection_is o (record e w)).
  { intros e w Hw. exact Hw. }
  destruct r; [congruence|..]; cbn [serve];
    unfold void, on, off, get_status, get_power, get_frequency,
      set_power_call, set_frequency_call, set_power, set_frequency, cw_on,
      set_cw, set_list, py_len, first_item, last_item, reset_listpos,
      reset_sweeppos, set_sweep, reset_sweep, sweep_on, list_on.
  all: try (unfold set_ext_trigger; cbv zeta).
  all: repeat first [apply keeps_connection_setattr; discriminate | keep_step].
Qed.

Lemma after_without_activation o conv repr fuel rs w :
  OnActivate ∉ rs ->
  connection_is o w -> connection_is o (after conv repr fuel rs w).
Proof.
  revert w. induction rs as [|r rs IH]; intros w Hrs Hw; [exact Hw|].
  apply not_elem_of_cons in Hrs as [Hr Hrs].
  cbn [after fold_left]. apply IH; [exact Hrs|].
  apply keeps_connection_serve; [congruence | exact Hw].
Qed.

Lemma after_activated conv repr fuel rs w :
  activated w -> activated (after conv repr fuel rs w).
Proof.
  apply keeps_after.
  - intros e w0 Hw0. exact Hw0.
  - intros name v Ha w0 Hw0. unfold activated. cbn [setattr snd attrs with_attrs].
    destruct (decide (name = "_usb_connection")) as [->|Hne].
    + destruct v; try discriminate Ha. apply lookup_insert_eq.
    + rewrite lookup_insert_ne by exact Hne. exact Hw0.
Qed.

(** Only activation binds the connection attribute.  A sequence of requests
    without an activation leaves the attribute exactly as it was, absent or
    whatever it held.  With activations among the requests, an attribute
    that held a session holds a session afterwards: the methods never
    delete it and bind it to nothing but what [open_resource] returned. *)
Theorem connection_bound_only_by_activation conv repr fuel rs w :
  (OnActivate ∉ rs ->
   attrs (after conv repr fuel rs w) !! "_usb_connection" =
     attrs w !! "_usb_connection") /\
  (activated w -> activated (after conv repr fuel rs w)).
Proof.
  split.
  - intros Hrs.
    apply (after_without_activation (attrs w !! "_usb_connection"));
      [exact Hrs | reflexivity].
  - apply after_activated.
Qed.

Lemma connection_bound_only_by_activation_witness :
  attrs (after (fun _ => None) (fun _ => "?") 2%nat
           [SetList (Some []) None; CwOn; SweepOn; SetExtTrigger FALLING]
           (configured "ASRL3::INSTR" 10 (bench "0"))) !! "_usb_connection" =
    attrs (configured "ASRL3::INSTR" 10 (bench "0")) !! "_usb_connection" /\
  activated
    (after (fun _ => None) (fun _ => "?") 2%nat
       [SetList (Some []) None; CwOn; OnActivate;
        SetSweep (GHz 1) (GHz 2) (GHz 1) (GHz 1)]
       (lab "0")).
Proof.
  split.
  - apply (proj1 (connection_bound_only_by_activation (fun _ => None)
                    (fun _ => "?") 2%nat
                    [SetList (Some []) None; CwOn; SweepOn;
                     SetExtTrigger FALLING]
                    (configured "ASRL3::INSTR" 10 (bench "0")))).
    intros H.
    repeat (apply elem_of_cons in H as [H|H]; [discriminate|]).
    exact (proj1 (elem_of_nil _) H).
  - apply (proj2 (connection_bound_only_by_activation (fun _ => None)
                    (fun _ => "?") 2%nat
                    [SetList (Some []) None; CwOn; OnActivate;
                     SetSweep (GHz 1) (GHz 2) (GHz 1) (GHz 1)]
                    (lab "0"))).
    reflexivity.
Defined.

(** The mode attribute only ever holds 'cw', 'list' or 'sweep': if it is
    absent or one of the three before a sequence of requests, it is so
    after it. *)
Theorem mode_attribute_stays_known conv repr fuel rs w :
  mode_known w -> mode_known (after conv repr fuel rs w).
Proof.
  apply keeps_after.
  - intros e w0 Hw0. exact Hw0.
  - intros name v Ha w0 Hw0. unfold mode_known.
    cbn [setattr snd attrs with_attrs].
    destruct (decide (name = "internal_mode")) as [->|Hne].
    + rewrite lookup_insert_eq. exact Ha.
    + rewrite lookup_insert_ne by exact Hne. exact Hw0.
Qed.

Lemma mode_attribute_stays_known_witness :
  mode_known
    (after (fun _ => None) (fun _ => "?") 2%nat
       [OnActivate; ListOn; SetCw None None; SweepOn; ResetSweeppos]
       (configured "ASRL3::INSTR" 10 (bench "1"))).
Proof.
  apply (mode_attribute_stays_known (fun _ => None) (fun _ => "?") 2%nat
           [OnActivate; ListOn; SetCw None None; SweepOn; ResetSweeppos]
           (configured "ASRL3::INSTR" 10 (bench "1"))).
  reflexivity.
Defined.

(** ** Activation *)

Ltac read_attr x :=
  rewrite getattr_then with (v := x);
  [| cbn [attrs with_attrs record]; by simplify_map_eq ].

Lemma on_activate_runs w t a model :
  attrs w !! "_usb_timeout" = Some (VInt t) ->
  attrs w !! "_usb_address" = Some a ->
  opens (instrument w) a (VInt (t * 1000)) = true ->
  query_reply (instrument w) (trace w) "+" = Some model ->
  on_activate w =
    (Returned tt,
     {| attrs := <["model" := VStr model]>
                   (<["_usb_connection" := VConnection]>
                      (<["rm" := VResourceManager]>
                         (<["_usb_timeout" := VInt (t * 1000)]> (attrs w))));
        trace := trace w ++ [Queried "+"];
        instrument := instrument w |}).
Proof.
  intros Ht Ha Hopen Hmodel. unfold on_activate.
  read_attr (VInt t).
  cbn [mul_int]. rewrite run_bind. cbn [mret M_ret].
  rewrite run_bind. cbn [setattr]. rewrite run_bind. cbn [setattr].
  read_attr VResourceManager. read_attr a. read_attr (VInt (t * 1000)).
  rewrite run_bind. unfold open_resource. cbn [instrument with_attrs].
  rewrite Hopen. rewrite run_bind. cbn [setattr].
  rewrite run_bind.
  rewrite ask_returns with (reply := model);
    [reflexivity | unfold activated; cbn [attrs with_attrs]; by simplify_map_eq
    | exact Hmodel].
Qed.

Lemma on_activate_refused w t a :
  attrs w !! "_usb_timeout" = Some (VInt t) ->
  attrs w !! "_usb_address" = Some a ->
  opens (instrument w) a (VInt (t * 1000)) = false ->
  on_activate w =
    (Raised VisaIOError,
     with_attrs (insert "rm" VResourceManager)
       (with_attrs (insert "_usb_timeout" (VInt (t * 1000))) w)).
Proof.
  intros Ht Ha Hopen. unfold on_activate.
  read_attr (VInt t).
  cbn [mul_int]. rewrite run_bind. cbn [mret M_ret].
  rewrite run_bind. cbn [setattr]. rewrite run_bind. cbn [setattr].
  read_attr VResourceManager. read_attr a. read_attr (VInt (t * 1000)).
  rewrite run_bind. unfold open_resource. cbn [instrument with_attrs].
  rewrite Hopen. reflexivity.
Qed.

Lemma on_activate_scales_timeout w t :
  attrs w !! "_usb_timeout" = Some (VInt t) ->
  attrs (snd (on_activate w)) !! "_usb_timeout" = Some (VInt (t * 1000)).
Proof.
  intros Ht. unfold on_activate.
  read_attr (VInt t).
  cbn [mul_int]. rewrite run_bind. cbn [mret M_ret].
  rewrite run_bind. cbn [setattr].
  match goal with
  | |- attrs (snd (?c ?w1)) !! _ = _ =>
      assert (Hc : untouched "_usb_timeout" c)
  end.
  { repeat first
      [ apply untouched_ask
      | apply untouched_open_resource
      | apply untouched_getattr
      | apply untouched_setattr; discriminate
      | apply untouched_bind; [|intros] ]. }
  rewrite Hc. cbn [attrs with_attrs]. apply lookup_insert_eq.
Qed.

(** Activation with a timeout of [t] seconds opens the resource with
    [t * 1000], keeps that number as the timeout, stores the session and
    the resource manager, and keeps the reply to the one query it sends,
    "+", as the model. *)
Theorem on_activate_opens_in_milliseconds w t a model :
  attrs w !! "_usb_timeout" = Some (VInt t) ->
  attrs w !! "_usb_address" = Some a ->
  opens (instrument w) a (VInt (t * 1000)) = true ->
  query_reply (instrument w) (trace w) "+" = Some model ->
  on_activate w =
    (Returned tt,
     {| attrs := <["model" := VStr model]>
                   (<["_usb_connection" := VConnection]>
                      (<["rm" := VResourceManager]>
                         (<["_usb_timeout" := VInt (t * 1000)]> (attrs w))));
        trace := trace w ++ [Queried "+"];
        instrument := instrument w |}).
Proof. apply (on_activate_runs w t a model). Qed.

Lemma on_activate_opens_in_milliseconds_witness :
  let w := configured "ASRL3::INSTR" 10 (bench "0") in
  on_activate w =
    (Returned tt,
     {| attrs := <["model" := VStr ("0" +:+ newline)]>
                   (<["_usb_connection" := VConnection]>
                      (<["rm" := VResourceManager]>
                         (<["_usb_timeout" := VInt (10 * 1000)]> (attrs w))));
        trace := trace w ++ [Queried "+"];
        instrument := instrument w |}).
Proof.
  apply (on_activate_opens_in_milliseconds
           (configured "ASRL3::INSTR" 10 (bench "0")) 10
           (VStr "ASRL3::INSTR") ("0" +:+ newline)).
  - reflexivity.
  - reflexivity.
  - reflexivity.
  - reflexivity.
Defined.

(** When the resource cannot be opened, activation raises the library's
    exception with nothing sent and no connection stored, so that a method
    called next still finds no connection; the timeout has been scaled and
    the resource manager stored all the same. *)
Theorem on_activate_open_refused w t a :
  attrs w !! "_usb_timeout" = Some (VInt t) ->
  attrs w !! "_usb_address" = Some a ->
  attrs w !! "_usb_connection" = None ->
  opens (instrument w) a (VInt (t * 1000)) = false ->
  let w' := with_attrs (insert "rm" VResourceManager)
              (with_attrs (insert "_usb_timeout" (VInt (t * 1000))) w) in
  on_activate w = (Raised VisaIOError, w') /\
  trace w' = trace w /\
  on w' = (Raised (AttributeError "_usb_connection"), w').
Proof.
  intros Ht Ha Hconn Hopen w'. split; [|split].
  - apply (on_activate_refused w t a); assumption.
  - reflexivity.
  - unfold on. apply bind_raised, send_inactive.
    subst w'. cbn [attrs with_attrs].
    rewrite !lookup_insert_ne by discriminate. exact Hconn.
Qed.

Lemma on_activate_open_refused_witness :
  let w := configured "ASRL3::INSTR" 10 unplugged in
  let w' := with_attrs (insert "rm" VResourceManager)
              (with_attrs (insert "_usb_timeout" (VInt (10 * 1000))) w) in
  on_activate w = (Raised VisaIOError, w') /\
  trace w' = trace w /\
  on w' = (Raised (AttributeError "_usb_connection"), w').
Proof.
  apply (on_activate_open_refused (configured "ASRL3::INSTR" 10 unplugged) 10
           (VStr "ASRL3::INSTR")).
  - reflexivity.
  - reflexivity.
  - reflexivity.
  - reflexivity.
Defined.

(** Every run of [on_activate] multiplies the stored timeout by 1000,
    whether it succeeds or raises later on: an adapter activated twice
    ends with a million times the configured number. *)
Theorem on_activate_scales_timeout_each_time w t :
  attrs w !! "_usb_timeout" = Some (VInt t) ->
  attrs (snd (on_activate w)) !! "_usb_timeout" = Some (VInt (t * 1000)) /\
  attrs (snd (on_activate (snd (on_activate w)))) !! "_usb_timeout" =
    Some (VInt (t * 1000000)).
Proof.
  intros Ht.
  pose proof (on_activate_scales_timeout w t Ht) as H1.
  split; [exact H1|].
  rewrite (on_activate_scales_timeout _ _ H1).
  do 2 f_equal. lia.
Qed.

Lemma on_activate_scales_timeout_each_time_witness :
  attrs (snd (on_activate (lab "0"))) !! "_usb_timeout" =
    Some (VInt (10000 * 1000)) /\
  attrs (snd (on_activate (snd (on_activate (lab "0"))))) !! "_usb_timeout" =
    Some (VInt (10000 * 1000000)).
Proof.
  apply (on_activate_scales_timeout_each_time (lab "0") 10000).
  reflexivity.
Defined.
